(** * Mars Explorer Hub: the NASA client and the display helpers

    A shallow embedding of [src/data/nasa_client.py] and
    [src/utils/helpers.py], and the properties of their response
    normalisation, gateway and formatting code.

    Conventions of the embedding.
    - A Python [str] that the program receives is a [string] whose
      characters are the code points U+0000..U+00FF, one [ascii] per code
      point.  The Unicode-aware methods ([isdigit], [lower], [title],
      [int]) are given by their tables on that block.  A [str] that the
      program produces can leave the block ([title] of U+00B5 and U+00FF,
      the unit symbol of [format_temperature]); it is a [ustring], a list
      of code points.
    - A parsed JSON document is a [json]; Python's [None] is [JNull], a
      [dict] is an association list in insertion order (keys distinct), a
      non-integer number is the rational it denotes.
    - A [float] that the display helpers compute with or print is a
      binary64 number, a primitive float: its arithmetic rounds, and it
      can be a NaN, an infinity or a negative zero.
    - Code that can raise returns a [result]; code that talks to the
      network or to the page runs in the monad [M] over a [world] that
      records every request sent and every notice shown.
    - [st.cache_data] is left out: every call is a call whose body runs. *)

From Stdlib Require Import ZArith QArith Qround Qabs List String Ascii Bool Lia.
From Stdlib Require Import DecimalString DecimalN Lqa.
From Stdlib Require Import Sorting.Sorted Sorting.Permutation.
From Stdlib Require PrimFloat FloatOps SpecFloat.
Import ListNotations.

Set Warnings "-register-all,-inexact-float".

Local Open Scope Z_scope.

(** ** Python strings *)

Module PyStr.

(** A produced string: a sequence of Unicode code points. *)
Definition ustring := list N.

Definition cp (c : ascii) : N := N_of_ascii c.

Definition chars (s : string) : list ascii := list_ascii_of_string s.

Definition ustr (s : string) : ustring := map cp (chars s).

Definition in_range (lo hi n : N) : bool := (N.leb lo n && N.leb n hi)%bool.

(** [c.isdigit()]: Numeric_Type Decimal or Digit.  In the block these are
    the ten ASCII digits and the superscripts U+00B2, U+00B3, U+00B9. *)
Definition isdigit_char (c : ascii) : bool :=
  let n := cp c in
  (in_range 48 57 n || N.eqb n 178 || N.eqb n 179 || N.eqb n 185)%bool.

(** [c.isdecimal()]: the characters [int] reads as digits. *)
Definition isdecimal_char (c : ascii) : bool := in_range 48 57 (cp c).

(** [s.isdigit()]: at least one character, and all of them digits. *)
Definition isdigit (s : string) : bool :=
  match chars s with
  | [] => false
  | l => forallb isdigit_char l
  end.

Definition is_upper (n : N) : bool :=
  (in_range 65 90 n || in_range 192 214 n || in_range 216 222 n)%bool.

(** Lower-case letters that have an upper-case partner inside the block. *)
Definition is_lower_paired (n : N) : bool :=
  (in_range 97 122 n || in_range 224 246 n || in_range 248 254 n)%bool.

(** Cased characters: categories Lu, Ll and the Other_Lowercase ordinal
    indicators U+00AA and U+00BA. *)
Definition is_cased (c : ascii) : bool :=
  let n := cp c in
  (is_upper n || is_lower_paired n
   || N.eqb n 170 || N.eqb n 181 || N.eqb n 186 || N.eqb n 223 || N.eqb n 255)%bool.

Definition lower_char (c : ascii) : ascii :=
  let n := cp c in
  if is_upper n then ascii_of_N (n + 32) else c.

(** [s.lower()] *)
Fixpoint lower (s : string) : string :=
  match s with
  | EmptyString => EmptyString
  | String c r => String (lower_char c) (lower r)
  end.

(** The title-case mapping of one character.  U+00B5 and U+00FF map out of
    the block, U+00DF maps to two characters. *)
Definition title_char (c : ascii) : ustring :=
  let n := cp c in
  if is_lower_paired n then [(n - 32)%N]
  else if N.eqb n 181 then [924%N]
  else if N.eqb n 223 then [83%N; 115%N]
  else if N.eqb n 255 then [376%N]
  else [n].

(** [s.title()]: a character that follows a cased character is lowered,
    any other character is title-cased. *)
Fixpoint title_from (previous_is_cased : bool) (l : list ascii) : ustring :=
  match l with
  | [] => []
  | c :: r =>
      ((if previous_is_cased then [cp (lower_char c)] else title_char c)
       ++ title_from (is_cased c) r)%list
  end.

Definition title (s : string) : ustring := title_from false (chars s).

(** [s.replace(a, b)] for single characters. *)
Fixpoint replace_char (a b : ascii) (s : string) : string :=
  match s with
  | EmptyString => EmptyString
  | String c r => String (if Ascii.eqb c a then b else c) (replace_char a b r)
  end.

(** [s.startswith(p)] *)
Fixpoint startswith (s p : string) {struct p} : bool :=
  match p, s with
  | EmptyString, _ => true
  | String a p', String c s' => (Ascii.eqb a c && startswith s' p')%bool
  | String _ _, EmptyString => false
  end.

(** [a in s] for a single character [a]. *)
Fixpoint contains_char (a : ascii) (s : string) : bool :=
  match s with
  | EmptyString => false
  | String c r => (Ascii.eqb c a || contains_char a r)%bool
  end.

(** [s.split(a)[0]]: the part of [s] before the first [a], all of [s] when
    there is none. *)
Fixpoint split_first (a : ascii) (s : string) : string :=
  match s with
  | EmptyString => EmptyString
  | String c r => if Ascii.eqb c a then EmptyString else String c (split_first a r)
  end.

(** [needle in s] for strings. *)
Fixpoint contains (needle s : string) : bool :=
  (startswith s needle
   || match s with
      | EmptyString => false
      | String _ r => contains needle r
      end)%bool.

(** [s[:n]] with Python's reading of a negative bound. *)
Definition slice_to {A} (n : Z) (l : list A) : list A :=
  if n <? 0 then firstn (Z.to_nat (Z.of_nat (List.length l) + n)) l
  else firstn (Z.to_nat n) l.

End PyStr.

(** ** Exceptions and JSON values *)

Inductive pyexn : Type :=
| AttributeError
| TypeError
| KeyError
| ValueError.

Inductive result (A : Type) : Type :=
| Ok (a : A)
| Raise (e : pyexn).

Arguments Ok {A} a.
Arguments Raise {A} e.

Definition rbind {A B} (r : result A) (k : A -> result B) : result B :=
  match r with
  | Ok a => k a
  | Raise e => Raise e
  end.

Declare Scope result_scope.
Delimit Scope result_scope with result.
Notation "x <- r ;; k" := (rbind r (fun x => k))
  (at level 61, r at next level, right associativity) : result_scope.

(** The statements of a [for] loop that appends one item per element; the
    first element that raises ends the loop. *)
Fixpoint for_each {A B} (body : A -> result B) (l : list A) : result (list B) :=
  match l with
  | [] => Ok []
  | x :: r =>
      (y <- body x ;;
       ys <- for_each body r ;;
       Ok (y :: ys))%result
  end.

(** What [response.json()] returns. *)
Inductive json : Type :=
| JNull
| JBool (b : bool)
| JInt (z : Z)
| JFloat (q : Q)
| JStr (s : string)
| JArr (l : list json)
| JObj (m : list (string * json)).

Definition dict := list (string * json).

Module Py.

Import PyStr.

(** [bool(v)], as [if not v] reads it. *)
Definition truthy (v : json) : bool :=
  match v with
  | JNull => false
  | JBool b => b
  | JInt z => negb (z =? 0)
  | JFloat q => negb (Qnum q =? 0)
  | JStr s => negb (String.eqb s "")
  | JArr l => match l with [] => false | _ => true end
  | JObj m => match m with [] => false | _ => true end
  end.

Fixpoint lookup (k : string) (m : dict) : option json :=
  match m with
  | [] => None
  | (k', v) :: r => if String.eqb k k' then Some v else lookup k r
  end.

(** [list(m.keys())] *)
Definition keys (m : dict) : list string := map fst m.

(** [k in m] *)
Definition mem (k : string) (m : dict) : bool :=
  match lookup k m with
  | Some _ => true
  | None => false
  end.

(** [m[k]] *)
Definition getitem (m : dict) (k : string) : result json :=
  match lookup k m with
  | Some v => Ok v
  | None => Raise KeyError
  end.

(** [v.get(k, default)]: only a dict has the method. *)
Definition get (v : json) (k : string) (default : json) : result json :=
  match v with
  | JObj m => Ok (match lookup k m with Some x => x | None => default end)
  | _ => Raise AttributeError
  end.

(** [v > 0] *)
Definition gt0 (v : json) : result bool :=
  match v with
  | JInt z => Ok (0 <? z)
  | JFloat q => Ok (0 <? Qnum q)
  | JBool b => Ok b
  | _ => Raise TypeError
  end.

(** The white space that [int] strips. *)
Definition is_int_space (c : ascii) : bool :=
  let n := cp c in
  (in_range 9 13 n || N.eqb n 32 || N.eqb n 133 || N.eqb n 160)%bool.

Fixpoint lstrip (l : list ascii) : list ascii :=
  match l with
  | c :: r => if is_int_space c then lstrip r else l
  | [] => []
  end.

Definition strip (l : list ascii) : list ascii := rev (lstrip (rev (lstrip l))).

Definition digit_val (c : ascii) : option Z :=
  if isdecimal_char c then Some (Z.of_N (cp c) - 48) else None.

(** The digits of an integer literal: underscores are allowed between two
    digits only.  Returns the value read and the number of digits. *)
Fixpoint int_digits (l : list ascii) (after_digit : bool) (acc : Z) (count : nat)
  : option (Z * nat) :=
  match l with
  | [] => if after_digit then Some (acc, count) else None
  | c :: r =>
      match digit_val c with
      | Some d => int_digits r true (10 * acc + d) (S count)
      | None =>
          if (Ascii.eqb c "_" && after_digit)%bool
          then int_digits r false acc count
          else None
      end
  end.

(** [sys.get_int_max_str_digits()], the interpreter's default. *)
Definition int_max_str_digits : nat := 4300.

(** [int(s)] for a string. *)
Definition int_of_str (s : string) : result Z :=
  let l := strip (chars s) in
  let '(negative, body) :=
    match l with
    | "+"%char :: r => (false, r)
    | "-"%char :: r => (true, r)
    | _ => (false, l)
    end in
  match int_digits body false 0 0 with
  | Some (v, count) =>
      if Nat.leb count int_max_str_digits
      then Ok (if negative then - v else v)
      else Raise ValueError
  | None => Raise ValueError
  end.

(** [int(v)] *)
Definition int (v : json) : result Z :=
  match v with
  | JInt z => Ok z
  | JBool b => Ok (if b then 1 else 0)
  | JFloat q => Ok (Z.quot (Qnum q) (Z.pos (Qden q)))
  | JStr s => int_of_str s
  | _ => Raise TypeError
  end.

(** [v == s] for a string [s]. *)
Definition eq_str (s : string) (v : json) : bool :=
  match v with
  | JStr t => String.eqb t s
  | _ => false
  end.

(** [s in v] for a string [s]: substring of a string, element of a list,
    key of a dict. *)
Definition str_in (s : string) (v : json) : result bool :=
  match v with
  | JStr t => Ok (contains s t)
  | JArr l => Ok (existsb (eq_str s) l)
  | JObj m => Ok (mem s m)
  | _ => Raise TypeError
  end.

End Py.

(** ** [src/utils/helpers.py] *)

Module Helpers.

Import PyStr.

Import PrimFloat.



(** Rounding to the nearest integer, a tie to the even neighbour: the
    rounding of the [f] presentation type. *)
Definition round_half_even (q : Q) : Z :=
  let f := Qfloor q in
  match Qcompare (q - inject_Z f) (1 # 2) with
  | Lt => f
  | Gt => f + 1
  | Eq => if Z.even f then f else f + 1
  end.

Definition pad_zeros (width : nat) (s : string) : string :=
  (string_of_list_ascii (repeat "0"%char (width - String.length s)) ++ s)%string.

Definition decimal (n : Z) : string :=
  NilZero.string_of_uint (N.to_uint (Z.to_N n)).

(** The rational that a finite binary64 number of significand [m] and
    exponent [e] denotes, [m * 2^e]. *)
Definition finite_value (m : positive) (e : Z) : Q :=
  if 0 <=? e then inject_Z (Z.pos m * 2 ^ e)
  else Z.pos m # (2 ^ Z.to_pos (- e))%positive.

(** The [f] presentation of a finite number given by its sign bit and
    its magnitude: the magnitude is rounded to [places] decimals on its
    exact value, and the sign is printed for every number whose sign bit
    is set, also when all the digits are zero. *)
Definition fixed_digits (places : nat) (negative : bool) (magnitude : Q)
  : string :=
  let scale := 10 ^ Z.of_nat places in
  let units := round_half_even (magnitude * inject_Z scale) in
  let sign := if negative then "-"%string else EmptyString in
  let whole := decimal (units / scale) in
  match places with
  | O => (sign ++ whole)%string
  | _ => (sign ++ whole ++ "." ++ pad_zeros places (decimal (units mod scale)))%string
  end.

(** [format(x, '.<places>f')] for a float [x]: a NaN prints as [nan]
    whatever its sign bit, an infinity as [inf] with its sign, and a
    zero or a finite number in fixed point. *)
Definition format_fixed (places : nat) (x : float) : string :=
  match FloatOps.Prim2SF x with
  | SpecFloat.S754_nan => "nan"
  | SpecFloat.S754_infinity negative => if negative then "-inf" else "inf"
  | SpecFloat.S754_zero negative => fixed_digits places negative 0
  | SpecFloat.S754_finite negative m e =>
      fixed_digits places negative (finite_value m e)
  end.

(** The first character of both unit symbols in the source file:
    U+C9F8. *)
Definition symbol_lead : N := 51704%N.

(** [unit] defaults to ["C"]. *)
Definition format_temperature (temp : option float) (unit : string) : ustring :=
  match temp with
  | None => ustr "N/A"
  | Some t =>
      let symbol := if String.eqb unit "C" then symbol_lead :: ustr "C"
                    else symbol_lead :: ustr "F" in
      (ustr (format_fixed 1 t) ++ symbol)%list
  end.

Definition format_pressure (pressure : option float) : ustring :=
  match pressure with
  | None => ustr "N/A"
  | Some p => ustr (format_fixed 0 p ++ " Pa")
  end.

(** [f"Sol {sol}"] for an integer [sol]; the conversion of an integer of
    more than [int_max_str_digits] digits raises. *)
Definition format_sol (sol : Z) : result string :=
  let digits := decimal (Z.abs sol) in
  let sign := if sol <? 0 then "-"%string else EmptyString in
  if Nat.leb (String.length digits) Py.int_max_str_digits then
    Ok ("Sol " ++ sign ++ digits)%string
  else Raise ValueError.

(** The argument is only compared with 0, -40 and -80, and a comparison
    of floats is exact: [temp_c] is given by the rational it denotes. *)
Definition get_temperature_color (temp_c : option Q) : string :=
  match temp_c with
  | None => "#888888"
  | Some t =>
      if Qlt_le_dec 0 t then "#FF6B35"
      else if Qlt_le_dec (-40 # 1) t then "#4ECDC4"
      else if Qlt_le_dec (-80 # 1) t then "#4A90E2"
      else "#B8E6F0"
  end.

End Helpers.

(** ** The page and the network *)

Import PyStr.

(** [config.py]: the three endpoints.  The per-day URL is the template
    with [latest_sol] formatted into it. *)
Inductive url : Type :=
| MARS_WEATHER_ENDPOINT
| MSL_MANIFEST_URL
| MSL_SOL_IMAGES_URL (sol : json).

(** One call of [session.get(url, params=params, timeout=timeout)]. *)
Record request : Type := mkRequest {
  req_url : url;
  req_params : option (list (string * string));
  req_timeout : Z
}.

(** The responses considered are those whose body the decoder either
    reads as a document or refuses as not being JSON.  A body on which
    the decoder fails in another way (an integer literal of more digits
    than [int] converts, nesting beyond the recursion limit) is not among
    them. *)
Record response : Type := mkResponse {
  status_code : Z;
  (** the parsed body, [None] when the body is not JSON *)
  body : option json
}.

(** What one [session.get] does. *)
Inductive reply : Type :=
| TimedOut                        (* raises requests.exceptions.Timeout *)
| Failed                          (* raises another RequestException *)
| Responded (r : response).

(** What [st.error] and [st.warning] show, one constructor per message of
    [nasa_client.py], with the values formatted into the message. *)
Inductive notice : Type :=
| ErrorTimeout
| ErrorRateLimit
| ErrorHTTP (status : Z)
| ErrorNetwork
| WarningNoWeather
| WarningUnsupportedRover (titled : ustring)
| ErrorNoManifest
| WarningNoImageData
| WarningNoRecentPhotos
| ErrorNoSolImages (latest_sol : json)
| WarningNoImages (latest_sol : json).

(** The network answers a request knowing the requests sent before it. *)
Record world : Type := mkWorld {
  net : list request -> request -> reply;
  sent : list request;
  notices : list notice
}.

Definition M (A : Type) : Type := world -> result A * world.

Definition ret {A} (a : A) : M A := fun w => (Ok a, w).

Definition bind {A B} (m : M A) (k : A -> M B) : M B :=
  fun w =>
    match m w with
    | (Ok a, w') => k a w'
    | (Raise e, w') => (Raise e, w')
    end.

Definition lift {A} (r : result A) : M A := fun w => (r, w).

Definition show (n : notice) : M unit :=
  fun w => (Ok tt, mkWorld (net w) (sent w) (notices w ++ [n])).

Declare Scope M_scope.
Delimit Scope M_scope with M.
Notation "x <- m ;; k" := (bind m (fun x => k))
  (at level 61, m at next level, right associativity) : M_scope.
Notation "m ;; k" := (bind m (fun _ => k))
  (at level 61, right associativity) : M_scope.

(** ** [NASAClient._make_request] *)

(** The exceptions of [requests] that the gateway handles. *)
Inductive requests_exception : Type :=
| Timeout
| HTTPError (status : Z)
| RequestException.

(** [self.session.get(...)]: the request goes out and is recorded. *)
Definition session_get (rq : request) (w : world)
  : (requests_exception + response) * world :=
  let w' := mkWorld (net w) (sent w ++ [rq]) (notices w) in
  match net w (sent w) rq with
  | TimedOut => (inl Timeout, w')
  | Failed => (inl RequestException, w')
  | Responded r => (inr r, w')
  end.

(** [response.raise_for_status()] *)
Definition raise_for_status (r : response) : requests_exception + unit :=
  if (400 <=? status_code r) && (status_code r <? 600)
  then inl (HTTPError (status_code r))
  else inr tt.

(** [response.json()]; its decoding error,
    [requests.exceptions.JSONDecodeError], is a [RequestException]. *)
Definition response_json (r : response) : requests_exception + json :=
  match body r with
  | Some j => inr j
  | None => inl RequestException
  end.

Definition default_timeout : Z := 10.

Definition _make_request (u : url) (params : option (list (string * string)))
  (timeout : option Z) : M json :=
  fun w =>
    let timeout := match timeout with Some t => t | None => default_timeout end in
    let '(attempt, w1) :=
      match session_get (mkRequest u params timeout) w with
      | (inl e, w1) => (inl e, w1)
      | (inr response, w1) =>
          match raise_for_status response with
          | inl e => (inl e, w1)
          | inr _ => (response_json response, w1)
          end
      end in
    match attempt with
    | inr j => (Ok j, w1)
    | inl Timeout => (show ErrorTimeout ;; ret JNull)%M w1
    | inl (HTTPError status) =>
        ((if status =? 429 then show ErrorRateLimit else show (ErrorHTTP status)) ;;
         ret JNull)%M w1
    | inl RequestException => (show ErrorNetwork ;; ret JNull)%M w1
    end.

(** ** [NASAClient.get_mars_weather] *)

Module WeatherRecord.
Record t : Type := mk {
  sol : Z;
  min_temp_c : json;
  max_temp_c : json;
  avg_temp_c : json;
  pressure_pa : json;
  season : json;
  earth_date : json
}.
End WeatherRecord.

(** The rows of the [DataFrame], first row first. *)
Definition DataFrame := list WeatherRecord.t.

(** The body of the loop over [sol_keys] (lines 85-111). *)
Definition weather_record (data : dict) (sol : string) : result WeatherRecord.t :=
  (sol_data <- Py.getitem data sol ;;
   temp_data <- Py.get sol_data "AT" (JObj []) ;;
   min_temp <- Py.get temp_data "mn" JNull ;;
   max_temp <- Py.get temp_data "mx" JNull ;;
   avg_temp <- Py.get temp_data "av" JNull ;;
   pressure_data <- Py.get sol_data "PRE" (JObj []) ;;
   avg_pressure <- Py.get pressure_data "av" JNull ;;
   season <- Py.get sol_data "Season" (JStr "Unknown") ;;
   first_utc <- Py.get sol_data "First_UTC" JNull ;;
   n <- Py.int_of_str sol ;;
   Ok (WeatherRecord.mk n min_temp max_temp avg_temp avg_pressure season first_utc))%result.

Fixpoint insert_desc (r : WeatherRecord.t) (l : DataFrame) : DataFrame :=
  match l with
  | [] => [r]
  | x :: rest =>
      if WeatherRecord.sol x <=? WeatherRecord.sol r then r :: l
      else x :: insert_desc r rest
  end.

(** [df.sort_values('sol', ascending=False)].  The library leaves the
    order of rows with equal [sol] open; this sort keeps them in their
    order of arrival. *)
Definition sort_values_desc (df : DataFrame) : DataFrame :=
  fold_right insert_desc [] df.

(** Lines 76-117: what [get_mars_weather] does with a payload that passed
    [if not data]. *)
Definition weather_of_payload (data : json) : M (option DataFrame) :=
  match data with
  | JObj m =>
      let sol_keys := filter isdigit (Py.keys m) in
      match sol_keys with
      | [] => (show WarningNoWeather ;; ret None)%M
      | _ =>
          (weather_records <- lift (for_each (weather_record m) sol_keys) ;;
           ret (Some (sort_values_desc weather_records)))%M
      end
  | _ => lift (Raise AttributeError)       (* no [keys] method *)
  end.

Definition get_mars_weather : M (option DataFrame) :=
  (data <- _make_request MARS_WEATHER_ENDPOINT
             (Some [("feedtype", "json"); ("ver", "1.0")]%string) None ;;
   if negb (Py.truthy data) then ret None
   else weather_of_payload data)%M.

(** ** [NASAClient._format_camera_name] *)

Definition camera_map : list (string * string) :=
  [ ("NAV_LEFT", "Navigation Camera - Left");
    ("NAV_RIGHT", "Navigation Camera - Right");
    ("NAV_LEFT_B", "Navigation Camera - Left B");
    ("NAV_RIGHT_B", "Navigation Camera - Right B");
    ("FHAZ_LEFT", "Front Hazard Avoidance Camera - Left");
    ("FHAZ_RIGHT", "Front Hazard Avoidance Camera - Right");
    ("RHAZ_LEFT", "Rear Hazard Avoidance Camera - Left");
    ("RHAZ_RIGHT", "Rear Hazard Avoidance Camera - Right");
    ("MAST_LEFT", "Mast Camera - Left");
    ("MAST_RIGHT", "Mast Camera - Right");
    ("MAHLI", "Mars Hand Lens Imager");
    ("MARDI", "Mars Descent Imager");
    ("CHEMCAM", "Chemistry and Camera Complex") ]%string.

(** [instrument in table] *)
Fixpoint has_key (instrument : string) (table : list (string * string)) : bool :=
  match table with
  | [] => false
  | (key, _) :: rest => (String.eqb instrument key || has_key instrument rest)%bool
  end.

(** [table[instrument]] *)
Fixpoint item (table : list (string * string)) (instrument : string) : result string :=
  match table with
  | [] => Raise KeyError
  | (key, value) :: rest =>
      if String.eqb instrument key then Ok value else item rest instrument
  end.

(** The loop over [table.items()] that returns at the first key the
    instrument starts with. *)
Fixpoint partial_match (instrument : string) (items : list (string * string))
  : option string :=
  match items with
  | [] => None
  | (key, value) :: rest =>
      if startswith instrument key then Some value
      else partial_match instrument rest
  end.

Definition _format_camera_name (instrument : string) : result ustring :=
  if has_key instrument camera_map then
    (label <- item camera_map instrument ;; Ok (ustr label))%result
  else
    match partial_match instrument camera_map with
    | Some value => Ok (ustr value)
    | None => Ok (title (replace_char "_" " " instrument))
    end.

(** The call [_self._format_camera_name(instrument)] on whatever the image
    entry holds: a list or dict cannot be looked up in the table, any other
    value that is not a string has no [startswith]. *)
Definition format_camera_name_of (instrument : json) : result ustring :=
  match instrument with
  | JStr s => _format_camera_name s
  | JArr _ | JObj _ => Raise TypeError
  | _ => Raise AttributeError
  end.

(** ** [NASAClient.get_rover_photos] *)

Module PhotoRecord.
Record t : Type := mk {
  id : json;
  img_src : json;
  camera_name : ustring;
  camera_abbr : json;
  sol : Z;
  earth_date : json;
  rover : string
}.
End PhotoRecord.

(** [v[k]] for a string [k]. *)
Definition subscript (v : json) (k : string) : result json :=
  match v with
  | JObj m => Py.getitem m k
  | _ => Raise TypeError
  end.

(** [reversed(v)]: the items of a list, the characters of a string or the
    keys of a dict, last first. *)
Definition reversed (v : json) : result (list json) :=
  match v with
  | JArr l => Ok (rev l)
  | JStr s => Ok (rev (map (fun c => JStr (String c EmptyString)) (chars s)))
  | JObj m => Ok (rev (map JStr (Py.keys m)))
  | _ => Raise TypeError
  end.

(** The loop of lines 157-160 over the items that [reversed] yields;
    [JNull] when it ends without a [break]. *)
Fixpoint scan_sols (items : list json) : result json :=
  match items with
  | [] => Ok JNull
  | sol_info :: rest =>
      (num_images <- Py.get sol_info "num_images" (JInt 0) ;;
       populated <- Py.gt0 num_images ;;
       if populated : bool then subscript sol_info "sol"
       else scan_sols rest)%result
  end.

(** Lines 156-160: [latest_sol]. *)
Definition find_latest_sol (sols : json) : result json :=
  (items <- reversed sols ;; scan_sols items)%result.

(** Line 188. *)
Definition earth_date_of (utc_timestamp : json) : result json :=
  (has_T <- Py.str_in "T" utc_timestamp ;;
   if has_T : bool then
     match utc_timestamp with
     | JStr s => Ok (JStr (split_first "T" s))
     | _ => Raise AttributeError         (* no [split] method *)
     end
   else Ok utc_timestamp)%result.

(** The body of the loop over [images] (lines 183-202). *)
Definition photo_record (latest_sol : json) (img : json) : result PhotoRecord.t :=
  (img_url <- Py.get img "urlList" (JStr "") ;;
   utc_timestamp <- Py.get img "utc" (JStr "") ;;
   earth_date <- earth_date_of utc_timestamp ;;
   instrument <- Py.get img "instrument" (JStr "Unknown") ;;
   camera_name <- format_camera_name_of instrument ;;
   item_name <- Py.get img "itemName" (JStr "unknown") ;;
   sol_value <- Py.get img "sol" latest_sol ;;
   sol <- Py.int sol_value ;;
   Ok (PhotoRecord.mk item_name img_url camera_name instrument sol earth_date
         "Curiosity"))%result.

(** [sol_data['images'][:num_photos]] followed by the loop: a list is cut
    and walked; a string is cut and, when something is left, its first
    character has no [get]; nothing else can be sliced (a dict rejects the
    slice as a key: [TypeError] up to Python 3.11, [KeyError] after). *)
Inductive sliced : Type :=
| Items (images : list json)
| Characters (images : string).

Definition slice_images (all_images : json) (num_photos : Z) : result sliced :=
  match all_images with
  | JArr l => Ok (Items (slice_to num_photos l))
  | JStr s => Ok (Characters (string_of_list_ascii (slice_to num_photos (chars s))))
  | _ => Raise TypeError
  end.

(** Lines 170-204: from the per-day payload to the photo records. *)
Definition photos_of_payload (latest_sol sol_data : json) (num_photos : Z)
  : M (option (list PhotoRecord.t)) :=
  if negb (Py.truthy sol_data) then (show (ErrorNoSolImages latest_sol) ;; ret None)%M
  else
    (has_images <- lift (Py.str_in "images" sol_data) ;;
     if negb has_images then (show (ErrorNoSolImages latest_sol) ;; ret None)
     else
       all_images <- lift (subscript sol_data "images") ;;
       images <- lift (slice_images all_images num_photos) ;;
       match images with
       | Items [] | Characters EmptyString =>
           show (WarningNoImages latest_sol) ;; ret None
       | Items images =>
           formatted_photos <- lift (for_each (photo_record latest_sol) images) ;;
           ret (Some formatted_photos)
       | Characters _ => lift (Raise AttributeError)
       end)%M.

(** Lines 145-204: what [get_rover_photos] does with the manifest. *)
Definition photos_of_manifest (manifest_data : json) (num_photos : Z)
  : M (option (list PhotoRecord.t)) :=
  if negb (Py.truthy manifest_data) then (show ErrorNoManifest ;; ret None)%M
  else
    (sols <- lift (Py.get manifest_data "sols" (JArr [])) ;;
     if negb (Py.truthy sols) then (show WarningNoImageData ;; ret None)
     else
       latest_sol <- lift (find_latest_sol sols) ;;
       match latest_sol with
       | JNull => show WarningNoRecentPhotos ;; ret None
       | _ =>
           sol_data <- _make_request (MSL_SOL_IMAGES_URL latest_sol) None None ;;
           photos_of_payload latest_sol sol_data num_photos
       end)%M.

Definition get_rover_photos (rover_name : string) (num_photos : Z)
  : M (option (list PhotoRecord.t)) :=
  let rover_name := lower rover_name in
  if negb (String.eqb rover_name "curiosity") then
    (show (WarningUnsupportedRover (title rover_name)) ;; ret None)%M
  else
    (manifest_data <- _make_request MSL_MANIFEST_URL None None ;;
     photos_of_manifest manifest_data num_photos)%M.

(** ** The stated policies, for comparison with the code *)

(** The instrument-name policy as the specification words it: an exact
    table entry, else the first entry whose key is a prefix of the code,
    else the code with underscores turned into spaces, title-cased. *)
Definition camera_name_policy (instrument : string) : ustring :=
  match find (fun entry => String.eqb instrument (fst entry)) camera_map with
  | Some entry => ustr (snd entry)
  | None =>
      match find (fun entry => startswith instrument (fst entry)) camera_map with
      | Some entry => ustr (snd entry)
      | None => title (replace_char "_" " " instrument)
      end
  end.

(** A capitalisation of [reference]: the same letters, each one as it is
    or as its ASCII capital. *)
Fixpoint capitalisation_of (reference s : string) : Prop :=
  match reference, s with
  | EmptyString, EmptyString => True
  | String r reference', String c s' =>
      (c = r \/ (in_range 97 122 (cp r) = true /\ c = ascii_of_N (cp r - 32)))
      /\ capitalisation_of reference' s'
  | _, _ => False
  end.

(** A world in which no request was sent and nothing was shown. *)
Definition fresh (network : list request -> request -> reply) : world :=
  mkWorld network [] [].

(** A network that answers every request with the same reply. *)
Definition always (r : reply) : list request -> request -> reply :=
  fun _ _ => r.

Definition answers (status : Z) (j : json) : reply :=
  Responded (mkResponse status (Some j)).

(** One day summary of the manifest: the day index and the number of
    images taken on it. *)
Record DaySummary : Type := mkDay {
  day_sol : Z;
  day_num_images : Z
}.

(** The JSON object of a day summary; a missing count reads as 0. *)
Inductive encodes_day : json -> DaySummary -> Prop :=
| EncodesDay :
    forall m d,
      Py.lookup "sol" m = Some (JInt (day_sol d)) ->
      Py.lookup "num_images" m = Some (JInt (day_num_images d)) ->
      encodes_day (JObj m) d
| EncodesDayWithoutCount :
    forall m d,
      Py.lookup "sol" m = Some (JInt (day_sol d)) ->
      Py.lookup "num_images" m = None ->
      day_num_images d = 0 ->
      encodes_day (JObj m) d.

Definition populated (d : DaySummary) : bool := 0 <? day_num_images d.

(** The selection as the specification words it: from the most recent
    entry backward, the first day with an image count above zero. *)
Definition latest_populated (days : list DaySummary) : option DaySummary :=
  find populated (rev days).

Definition day_json (sol num_images : Z) : json :=
  JObj [("sol", JInt sol); ("num_images", JInt num_images)]%string.

(** One entry of the per-day image list, read with the defaults of the
    loop body: identifier, asset URL, timestamp, instrument code and day
    index. *)
Record ImageEntry : Type := mkImage {
  image_id : json;
  image_url : json;
  image_utc : string;
  image_instrument : string;
  image_sol : Z
}.

Definition field (m : dict) (k : string) (default : json) : json :=
  match Py.lookup k m with
  | Some v => v
  | None => default
  end.

(** The JSON object of an image entry: timestamp and instrument are
    strings when present, and the day index (the entry's own, else
    [latest_sol]) converts to an integer. *)
Inductive encodes_image (latest_sol : json) : json -> ImageEntry -> Prop :=
| EncodesImage :
    forall m e,
      field m "itemName" (JStr "unknown") = image_id e ->
      field m "urlList" (JStr "") = image_url e ->
      field m "utc" (JStr "") = JStr (image_utc e) ->
      field m "instrument" (JStr "Unknown") = JStr (image_instrument e) ->
      Py.int (field m "sol" latest_sol) = Ok (image_sol e) ->
      encodes_image latest_sol (JObj m) e.

(** [date] is the part of [timestamp] before its first [T], or all of it
    when it has none. *)
Definition before_separator (timestamp date : string) : Prop :=
  (exists rest, timestamp = (date ++ String "T" rest)%string
                /\ contains_char "T" date = false)
  \/ (contains_char "T" timestamp = false /\ date = timestamp).

(** The photo record of an image entry. *)
Definition photo_of (e : ImageEntry) : PhotoRecord.t :=
  PhotoRecord.mk (image_id e) (image_url e)
    (camera_name_policy (image_instrument e))
    (JStr (image_instrument e)) (image_sol e)
    (JStr (split_first "T" (image_utc e))) "Curiosity".

Definition image_json (name utc instrument : string) (sol : Z) : json :=
  JObj [("itemName", JStr name); ("urlList", JStr ("https://mars.nasa.gov/" ++ name));
        ("instrument", JStr instrument); ("sol", JInt sol); ("utc", JStr utc)]%string.

(** The entry of one day of the weather feed: an object whose [AT] and
    [PRE] members, when present, are objects. *)
Definition object_or_missing (d : dict) (k : string) : Prop :=
  match Py.lookup k d with
  | None | Some (JObj _) => True
  | Some _ => False
  end.

Definition members (d : dict) (k : string) : dict :=
  match Py.lookup k d with
  | Some (JObj t) => t
  | _ => []
  end.

(** The record of day [n] read from its entry [d]. *)
Definition day_record (n : Z) (d : dict) : WeatherRecord.t :=
  WeatherRecord.mk n
    (field (members d "AT") "mn" JNull)
    (field (members d "AT") "mx" JNull)
    (field (members d "AT") "av" JNull)
    (field (members d "PRE") "av" JNull)
    (field d "Season" (JStr "Unknown"))
    (field d "First_UTC" JNull).

(** A top-level key that the normaliser can read: its entry is a day
    entry and the key converts to an integer. *)
Definition day_key (m : dict) (k : string) : Prop :=
  (exists d, Py.lookup k m = Some (JObj d)
             /\ object_or_missing d "AT" /\ object_or_missing d "PRE")
  /\ (exists n, Py.int_of_str k = Ok n).

Definition sol_number (k : string) : Z :=
  match Py.int_of_str k with
  | Ok n => n
  | Raise _ => 0
  end.

Definition day_entry (m : dict) (k : string) : dict :=
  match Py.lookup k m with
  | Some (JObj d) => d
  | _ => []
  end.

(** The record the normaliser is to produce for key [k]. *)
Definition record_of_key (m : dict) (k : string) : WeatherRecord.t :=
  day_record (sol_number k) (day_entry m k).

Definition descending : list Z -> Prop := StronglySorted (fun a b => b <= a).

(** The one-character key U+00B2, superscript two. *)
Definition superscript_two : string := String (ascii_of_nat 178) EmptyString.

(** A key of 4301 nines: one digit more than [int] accepts. *)
Definition overlong_key : string :=
  string_of_list_ascii (repeat "9"%char (S Py.int_max_str_digits)).

Definition sample_day : json :=
  JObj [("AT", JObj [("av", JFloat (-62314 # 1000)); ("mn", JFloat (-96872 # 1000));
                     ("mx", JFloat (-15908 # 1000))]);
        ("PRE", JObj [("av", JFloat (750563 # 1000))]);
        ("Season", JStr "fall");
        ("First_UTC", JStr "2020-10-19T18:32:20Z")]%string.

Definition sample_first_image : json :=
  image_json "NLB_1" "2024-01-02T03:04:05Z" "MAST_LEFT_B" 11.
Definition sample_second_image : json :=
  image_json "NLB_2" "2024-01-02" "XYZ_FOO" 11.
Definition sample_third_image : json :=
  image_json "NLB_3" "2024-01-02T09:00:00Z" "MAHLI" 11.
Definition sample_payload : json :=
  JObj [("images", JArr [sample_first_image; sample_second_image;
                         sample_third_image])]%string.

(** [m] leaves the network as it is and only appends to the requests sent
    and to the notices shown, and each notice it appends satisfies [P]. *)
Definition grows {A} (P : notice -> Prop) (m : M A) : Prop :=
  forall w, exists requests extra,
    net (snd (m w)) = net w
    /\ sent (snd (m w)) = sent w ++ requests
    /\ notices (snd (m w)) = notices w ++ extra
    /\ Forall P extra.

Definition is_unsupported_warning (n : notice) : bool :=
  match n with
  | WarningUnsupportedRover _ => true
  | _ => false
  end.

Definition supported (n : notice) : Prop := is_unsupported_warning n = false.

(** ** [config.get_nasa_api_key] *)

Module Config.

(** What [st.secrets["NASA_API_KEY"]] does: a value, one of the two
    errors the function catches, or another exception. *)
Inductive secret_lookup : Type :=
| SecretValue (v : json)
| SecretKeyError
| SecretFileNotFoundError
| SecretOtherError.

Record environment : Type := mkEnvironment {
  HAS_STREAMLIT : bool;
  (** [hasattr(st, 'secrets')] *)
  has_secrets : bool;
  secret : secret_lookup;
  (** [os.getenv("NASA_API_KEY")] *)
  getenv : option string
}.

Inductive key_result : Type :=
| Key (v : json)
| RaisesValueError            (* the function's own "key not found" error *)
| RaisesOther.                (* the exception of the secrets store, not caught *)

Definition get_nasa_api_key (env : environment) : key_result :=
  let from_environment :=
    match getenv env with
    | Some api_key =>
        if negb (String.eqb api_key "") then Key (JStr api_key)
        else RaisesValueError
    | None => RaisesValueError
    end in
  if HAS_STREAMLIT env && has_secrets env then
    match secret env with
    | SecretValue v => Key v
    | SecretKeyError | SecretFileNotFoundError => from_environment
    | SecretOtherError => RaisesOther
    end
  else from_environment.

End Config.

(** ** Further notions used in the statements *)

(** The notice of a reply on which the gateway returns [None]. *)
Definition failure_notice (r : reply) : option notice :=
  match r with
  | TimedOut => Some ErrorTimeout
  | Failed => Some ErrorNetwork
  | Responded r =>
      if (400 <=? status_code r) && (status_code r <? 600) then
        Some (if status_code r =? 429 then ErrorRateLimit
              else ErrorHTTP (status_code r))
      else
        match body r with
        | Some _ => None
        | None => Some ErrorNetwork
        end
  end.

(** [m] sends nothing and leaves the network as it is. *)
Definition quiet {A} (m : M A) : Prop :=
  forall w, net (snd (m w)) = net w /\ sent (snd (m w)) = sent w.

Definition weather_request : request :=
  mkRequest MARS_WEATHER_ENDPOINT
    (Some [("feedtype", "json"); ("ver", "1.0")]%string) 10.

Definition manifest_request : request := mkRequest MSL_MANIFEST_URL None 10.

Definition sol_request (latest_sol : json) : request :=
  mkRequest (MSL_SOL_IMAGES_URL latest_sol) None 10.

(** The colours of [get_temperature_color], coldest first. *)
Definition warmth (colour : string) : Z :=
  if String.eqb colour "#FF6B35" then 3
  else if String.eqb colour "#4ECDC4" then 2
  else if String.eqb colour "#4A90E2" then 1
  else 0.

Definition is_object (v : json) : bool :=
  match v with
  | JObj _ => true
  | _ => false
  end.

(** What a call of [get_rover_photos] can add to the world: the requests
    [later], the notices [notes], and its result.  A result of [None]
    comes with a notice, an exception or a list of photos with none; a
    list of photos is not empty, holds at most [num_photos] records (for
    a count that is not negative) and names the rover Curiosity. *)
Definition photo_outcome (num_photos : Z)
  (r : result (option (list PhotoRecord.t))) (notes : list notice) : Prop :=
  match r with
  | Ok None => notes <> []
  | Raise _ => notes = []
  | Ok (Some photos) =>
      notes = []
      /\ photos <> []
      /\ Forall (fun p => PhotoRecord.rover p = "Curiosity"%string) photos
      /\ (0 <= num_photos -> Z.of_nat (List.length photos) <= num_photos)
  end.

Definition extend (w : world) (later : list request) (notes : list notice) : world :=
  mkWorld (net w) (sent w ++ later) (notices w ++ notes).

Definition sample_manifest : dict :=
  [("sols", JArr [day_json 10 0; day_json 11 3; day_json 12 0])]%string.

(** A network that serves the sample manifest and, for sol 11, the
    sample payload. *)
Definition sample_network (_ : list request) (rq : request) : reply :=
  match req_url rq with
  | MSL_MANIFEST_URL => answers 200 (JObj sample_manifest)
  | MSL_SOL_IMAGES_URL (JInt 11) => answers 200 sample_payload
  | _ => Responded (mkResponse 404 None)
  end.

(** What the secrets store contributes: nothing when Streamlit or its
    [secrets] attribute is missing, else the outcome of the lookup. *)
Definition secrets_outcome (env : Config.environment) : option Config.secret_lookup :=
  if Config.HAS_STREAMLIT env && Config.has_secrets env
  then Some (Config.secret env) else None.

(** The store gives no value and no uncaught error: the function goes
    on to the environment variable. *)
Definition falls_through (env : Config.environment) : Prop :=
  secrets_outcome env = None
  \/ secrets_outcome env = Some Config.SecretKeyError
  \/ secrets_outcome env = Some Config.SecretFileNotFoundError.

Definition has_underscore (text : ustring) : bool := existsb (N.eqb 95) text.

(** Title-casing as the specification means it, for a code of ASCII
    characters, written position by position: an underscore becomes a
    space; a letter that begins the code or follows a character that is
    not a letter is a capital; a letter that follows a letter is small;
    any other character stays as it is. *)
Definition is_ascii_letter (n : N) : bool :=
  (in_range 65 90 n || in_range 97 122 n)%bool.

Definition capital (n : N) : N := if in_range 97 122 n then (n - 32)%N else n.

Definition small (n : N) : N := if in_range 65 90 n then (n + 32)%N else n.

Definition spaced (n : N) : N := if N.eqb n 95 then 32%N else n.

Definition title_cased_at (code : list N) (i : nat) : N :=
  let here := spaced (nth i code 0%N) in
  match i with
  | O => capital here
  | S j => if is_ascii_letter (nth j code 0%N) then small here else capital here
  end.

Definition title_cased (code : list N) : ustring :=
  map (title_cased_at code) (seq 0 (List.length code)).

Definition is_ascii (s : string) : bool :=
  forallb (fun c => N.ltb (cp c) 128) (chars s).

(** No key of the table is a prefix of the code (so none is equal to
    it): the code falls to the last step of the policy. *)
Definition unlisted (instrument : string) : bool :=
  negb (existsb (fun entry => startswith instrument (fst entry)) camera_map).

(** The two conversion formulas read over the rationals: the exact
    arithmetic of the specification, against which the floats of the
    code are compared. *)
Definition exact_celsius_to_fahrenheit (c : Q) : Q := (c * 9 / 5 + 32)%Q.

Definition exact_fahrenheit_to_celsius (f : Q) : Q := ((f - 32) * 5 / 9)%Q.

(** Temperature readings as floats. *)
Module Reading.

Import PrimFloat.








End Reading.

(** * Properties *)

(** ** Unit conversion and formatting *)

Section HelpersFacts.

Import Helpers.
Import Reading.
Import PrimFloat.







Lemma exact_round_trip_back :
  forall f : Q, (exact_celsius_to_fahrenheit (exact_fahrenheit_to_celsius f) == f)%Q.
Proof.
  intro f. unfold exact_fahrenheit_to_celsius, exact_celsius_to_fahrenheit. field.
Qed.

Lemma format_temperature_absent :
  forall unit, format_temperature None unit = ustr "N/A".
Proof. reflexivity. Qed.

Lemma format_pressure_absent : format_pressure None = ustr "N/A".
Proof. reflexivity. Qed.

Lemma format_pressure_present :
  forall p, format_pressure (Some p) = (ustr (format_fixed 0 p) ++ ustr " Pa")%list.
Proof.
  intro p. unfold format_pressure, ustr, chars.
  rewrite <- map_app. f_equal.
  generalize (format_fixed 0 p). intro s.
  induction s as [| a s IH]; simpl; [reflexivity | now rewrite IH].
Qed.

Lemma format_temperature_present :
  forall t unit,
    format_temperature (Some t) unit =
    (ustr (format_fixed 1 t)
     ++ [symbol_lead; if String.eqb unit "C" then 67%N else 70%N])%list.
Proof.
  intros t unit. unfold format_temperature.
  destruct (String.eqb unit "C"); reflexivity.
Qed.

(** [round_half_even] returns a nearest integer. *)
Lemma round_half_even_nearest :
  forall q, (Qabs (inject_Z (round_half_even q) - q) <= 1 # 2)%Q.
Proof.
  intro q. unfold round_half_even.
  pose proof (Qfloor_le q) as Hlo. pose proof (Qlt_floor q) as Hhi.
  set (f := Qfloor q) in *.
  assert (Enext : (inject_Z (f + 1) == inject_Z f + 1)%Q)
    by (rewrite inject_Z_plus; reflexivity).
  rewrite Enext in Hhi.
  assert (Hnear : (q - inject_Z f <= 1 # 2)%Q ->
                  (Qabs (inject_Z f - q) <= 1 # 2)%Q).
  { intro H. apply Qabs_case; intro; lra. }
  assert (Hfar : (1 # 2 <= q - inject_Z f)%Q ->
                 (Qabs (inject_Z (f + 1) - q) <= 1 # 2)%Q).
  { intro H. rewrite Enext. apply Qabs_case; intro; lra. }
  destruct (Qcompare (q - inject_Z f) (1 # 2)) eqn:E.
  - apply Qeq_alt in E. destruct (Z.even f).
    + apply Hnear. rewrite E. apply Qle_refl.
    + apply Hfar. rewrite E. apply Qle_refl.
  - apply Qlt_alt in E. apply Hnear. now apply Qlt_le_weak.
  - apply Qgt_alt in E. apply Hfar. now apply Qlt_le_weak.
Qed.

(** C9: [format_temperature] ends its text with the code point U+C9F8
    followed by the unit letter; the degree sign U+00B0 does not occur in
    it.  At -63.5 and unit C the text is -63.5, U+C9F8, C. *)
Theorem format_temperature_symbol_code_point :
  format_temperature (Some (-63.5)%float) "C" = (ustr "-63.5" ++ [51704%N; 67%N])%list
  /\ format_temperature (Some (-82.3)%float) "F" = (ustr "-82.3" ++ [51704%N; 70%N])%list
  /\ ~ In 176%N (format_temperature (Some (-63.5)%float) "C")
  /\ format_pressure (Some 721.5%float) = ustr "722 Pa".
Proof.
  repeat split; try (vm_compute; reflexivity).
  vm_compute. intuition discriminate.
Qed.

End HelpersFacts.

(** ** The gateway *)

Section GatewayFacts.

Lemma make_request_unfold :
  forall u params timeout w,
    let rq := mkRequest u params
                (match timeout with Some t => t | None => default_timeout end) in
    let w1 := mkWorld (net w) (sent w ++ [rq]) (notices w) in
    let failed n := (Ok JNull, mkWorld (net w) (sent w ++ [rq]) (notices w ++ [n])) in
    _make_request u params timeout w =
    match net w (sent w) rq with
    | TimedOut => failed ErrorTimeout
    | Failed => failed ErrorNetwork
    | Responded r =>
        if (400 <=? status_code r) && (status_code r <? 600) then
          if status_code r =? 429 then failed ErrorRateLimit
          else failed (ErrorHTTP (status_code r))
        else
          match body r with
          | Some j => (Ok j, w1)
          | None => failed ErrorNetwork
          end
    end.
Proof.
  intros u params timeout w. cbv zeta.
  unfold _make_request, session_get, raise_for_status, response_json.
  destruct (net w (sent w) _) as [| | r]; try reflexivity.
  destruct ((400 <=? status_code r) && (status_code r <? 600)).
  - destruct (status_code r =? 429); reflexivity.
  - destruct (body r); reflexivity.
Qed.

Lemma make_request_sends_once :
  forall u params timeout w,
    let rq := mkRequest u params (match timeout with Some t => t | None => 10 end) in
    (exists j, fst (_make_request u params timeout w) = Ok j)
    /\ sent (snd (_make_request u params timeout w)) = sent w ++ [rq]
    /\ net (snd (_make_request u params timeout w)) = net w.
Proof.
  intros u params timeout w rq.
  pose proof (make_request_unfold u params timeout w) as E.
  cbv zeta in E. unfold default_timeout in E. fold rq in E. rewrite E.
  destruct (net w (sent w) rq) as [| | r];
    try (repeat split; try reflexivity; eexists; reflexivity).
  destruct ((400 <=? status_code r) && (status_code r <? 600)).
  - destruct (status_code r =? 429);
      repeat split; try reflexivity; eexists; reflexivity.
  - destruct (body r); repeat split; try reflexivity; eexists; reflexivity.
Qed.

(** C4: one call of the gateway sends exactly one request (with a timeout
    of 10 when none is given) and never raises.  A timeout, a 429 status,
    any other error status and a network failure each show their own
    notice and return [None]; a response without an error status returns
    its parsed body and shows nothing. *)
Theorem make_request_failure_mapping :
  forall u params timeout w,
    let rq := mkRequest u params (match timeout with Some t => t | None => 10 end) in
    let out := _make_request u params timeout w in
    (exists j, fst out = Ok j)
    /\ sent (snd out) = sent w ++ [rq]
    /\ net (snd out) = net w
    /\ (net w (sent w) rq = TimedOut ->
        fst out = Ok JNull /\ notices (snd out) = notices w ++ [ErrorTimeout])
    /\ (forall r, net w (sent w) rq = Responded r -> status_code r = 429 ->
        fst out = Ok JNull /\ notices (snd out) = notices w ++ [ErrorRateLimit])
    /\ (forall r, net w (sent w) rq = Responded r ->
        400 <= status_code r < 600 -> status_code r <> 429 ->
        fst out = Ok JNull
        /\ notices (snd out) = notices w ++ [ErrorHTTP (status_code r)])
    /\ (net w (sent w) rq = Failed ->
        fst out = Ok JNull /\ notices (snd out) = notices w ++ [ErrorNetwork])
    /\ (forall r j, net w (sent w) rq = Responded r ->
        ~ 400 <= status_code r < 600 -> body r = Some j ->
        fst out = Ok j /\ notices (snd out) = notices w)
    /\ (forall status,
        NoDup [ErrorTimeout; ErrorRateLimit; ErrorHTTP status; ErrorNetwork]).
Proof.
  intros u params timeout w rq out.
  pose proof (make_request_unfold u params timeout w) as E.
  cbv zeta in E. unfold default_timeout in E. fold rq in E. fold out in E.
  assert (Hstatus : forall r, 400 <= status_code r < 600 <->
                              (400 <=? status_code r) && (status_code r <? 600) = true).
  { intro r. rewrite andb_true_iff, Z.leb_le, Z.ltb_lt. tauto. }
  destruct (make_request_sends_once u params timeout w) as (Hok & Hsent & Hnet).
  split; [exact Hok |]. split; [exact Hsent |]. split; [exact Hnet |].
  split; [| split; [| split; [| split; [| split]]]].
  - intro H. rewrite E, H. split; reflexivity.
  - intros r H H429. rewrite E, H, H429. split; reflexivity.
  - intros r H Hrange Hnot. rewrite E, H. apply Hstatus in Hrange. rewrite Hrange.
    apply Z.eqb_neq in Hnot. rewrite Hnot. split; reflexivity.
  - intro H. rewrite E, H. split; reflexivity.
  - intros r j H Hrange Hbody. rewrite E, H.
    destruct ((400 <=? status_code r) && (status_code r <? 600)) eqn:B.
    + apply Hstatus in B. contradiction.
    + rewrite Hbody. split; reflexivity.
  - intro status. repeat constructor; simpl; intuition discriminate.
Qed.

Lemma make_request_failure_mapping_witness :
  let call reply := _make_request MSL_MANIFEST_URL None None (fresh (always reply)) in
  (fst (call TimedOut) = Ok JNull /\ notices (snd (call TimedOut)) = [ErrorTimeout])
  /\ (fst (call (Responded (mkResponse 429 None))) = Ok JNull
      /\ notices (snd (call (Responded (mkResponse 429 None)))) = [ErrorRateLimit])
  /\ (fst (call (Responded (mkResponse 404 None))) = Ok JNull
      /\ notices (snd (call (Responded (mkResponse 404 None)))) = [ErrorHTTP 404])
  /\ (fst (call Failed) = Ok JNull /\ notices (snd (call Failed)) = [ErrorNetwork])
  /\ (fst (call (answers 200 (JObj []))) = Ok (JObj [])
      /\ notices (snd (call (answers 200 (JObj [])))) = []).
Proof.
  cbv zeta.
  split; [| split; [| split; [| split]]].
  - destruct (make_request_failure_mapping MSL_MANIFEST_URL None None
                (fresh (always TimedOut)))
      as (_ & _ & _ & H & _).
    apply H. reflexivity.
  - destruct (make_request_failure_mapping MSL_MANIFEST_URL None None
                (fresh (always (Responded (mkResponse 429 None)))))
      as (_ & _ & _ & _ & H & _).
    apply (H (mkResponse 429 None)); reflexivity.
  - destruct (make_request_failure_mapping MSL_MANIFEST_URL None None
                (fresh (always (Responded (mkResponse 404 None)))))
      as (_ & _ & _ & _ & _ & H & _).
    apply (H (mkResponse 404 None)); [reflexivity | simpl; lia | simpl; lia].
  - destruct (make_request_failure_mapping MSL_MANIFEST_URL None None
                (fresh (always Failed)))
      as (_ & _ & _ & _ & _ & _ & H & _).
    apply H. reflexivity.
  - destruct (make_request_failure_mapping MSL_MANIFEST_URL None None
                (fresh (always (answers 200 (JObj [])))))
      as (_ & _ & _ & _ & _ & _ & _ & H & _).
    apply (H (mkResponse 200 (Some (JObj []))) (JObj []));
      [reflexivity | simpl; lia | reflexivity].
Defined.

End GatewayFacts.

(** ** Instrument names *)

Section CameraNameFacts.

(** [startswith] is the textual prefix test. *)
Lemma startswith_iff :
  forall s p, startswith s p = true <-> exists rest, s = (p ++ rest)%string.
Proof.
  intros s p. revert s.
  induction p as [| a p IH]; intro s; simpl.
  - split; [intros _; now exists s | reflexivity].
  - destruct s as [| c s]; simpl.
    + split; [discriminate | intros [rest H]; discriminate].
    + rewrite andb_true_iff, Ascii.eqb_eq, IH. split.
      * intros [-> [rest ->]]. now exists rest.
      * intros [rest H]. injection H as -> ->. split; [reflexivity | now exists rest].
Qed.

Lemma has_key_find :
  forall instrument table,
    has_key instrument table = true ->
    exists entry,
      find (fun e => String.eqb instrument (fst e)) table = Some entry
      /\ item table instrument = Ok (snd entry).
Proof.
  intros instrument table.
  induction table as [| [key value] rest IH]; simpl; [discriminate |].
  destruct (String.eqb instrument key); simpl.
  - intros _. now exists (key, value).
  - exact IH.
Qed.

Lemma has_key_none :
  forall instrument table,
    has_key instrument table = false ->
    find (fun e => String.eqb instrument (fst e)) table = None.
Proof.
  intros instrument table.
  induction table as [| [key value] rest IH]; simpl; [reflexivity |].
  destruct (String.eqb instrument key); simpl; [discriminate | exact IH].
Qed.

Lemma partial_match_find :
  forall instrument items,
    partial_match instrument items =
    option_map snd (find (fun e => startswith instrument (fst e)) items).
Proof.
  intros instrument items.
  induction items as [| [key value] rest IH]; simpl; [reflexivity |].
  destruct (startswith instrument key); [reflexivity | exact IH].
Qed.

Lemma format_camera_name_refines :
  forall instrument,
    _format_camera_name instrument = Ok (camera_name_policy instrument).
Proof.
  intro instrument.
  unfold _format_camera_name, camera_name_policy.
  destruct (has_key instrument camera_map) eqn:K.
  - destruct (has_key_find _ _ K) as (entry & -> & ->). reflexivity.
  - rewrite (has_key_none _ _ K), partial_match_find.
    destruct (find _ camera_map); reflexivity.
Qed.

(** On ASCII characters the case tables are the letters' own. *)
Lemma ascii_case_tables :
  forall c,
    N.ltb (cp c) 128 = true ->
    title_char c = [capital (cp c)]
    /\ cp (lower_char c) = small (cp c)
    /\ is_cased c = is_ascii_letter (cp c).
Proof.
  intros c H.
  destruct c as [[] [] [] [] [] [] [] []];
    try discriminate H; vm_compute; repeat split.
Qed.

Lemma replaced_underscore :
  forall c,
    let c' := if Ascii.eqb c "_" then " "%char else c in
    cp c' = spaced (cp c)
    /\ is_ascii_letter (spaced (cp c)) = is_ascii_letter (cp c)
    /\ (N.ltb (cp c) 128 = true -> N.ltb (cp c') 128 = true).
Proof.
  intro c.
  destruct c as [[] [] [] [] [] [] [] []]; vm_compute; repeat split; intro H; exact H.
Qed.

Lemma chars_replace_char :
  forall a b s,
    chars (replace_char a b s)
    = map (fun c => if Ascii.eqb c a then b else c) (chars s).
Proof.
  intros a b s. induction s as [| c s IH]; [reflexivity |].
  cbn [replace_char]. unfold chars in *. cbn [list_ascii_of_string map].
  now rewrite IH.
Qed.

Lemma title_cased_at_shift :
  forall p code j,
    title_cased_at (p :: code) (S (S j)) = title_cased_at code (S j).
Proof. reflexivity. Qed.

(** The scan of [title] that carries the case of the previous character
    computes the positional definition. *)
Lemma title_from_positions :
  forall l p,
    forallb (fun c => N.ltb (cp c) 128) l = true ->
    title_from (is_ascii_letter p)
      (map (fun c => if Ascii.eqb c "_" then " "%char else c) l)
    = map (title_cased_at (p :: map cp l)) (seq 1 (List.length l)).
Proof.
  induction l as [| c r IH]; intros p H; [reflexivity |].
  cbn [forallb] in H. apply andb_true_iff in H. destruct H as [Hc Hr].
  destruct (replaced_underscore c) as (Ecp & Eletter & Hascii).
  destruct (ascii_case_tables _ (Hascii Hc)) as (Etitle & Elower & Ecased).
  rewrite Ecp in Etitle, Elower, Ecased. rewrite Eletter in Ecased.
  cbn [map title_from List.length seq].
  rewrite Etitle, Elower, Ecased.
  rewrite (IH (cp c) Hr).
  replace (map (title_cased_at (p :: cp c :: map cp r)) (seq 2 (List.length r)))
    with (map (title_cased_at (cp c :: map cp r)) (seq 1 (List.length r))).
  - unfold title_cased_at at 2. cbn [nth].
    destruct (is_ascii_letter p); reflexivity.
  - rewrite <- (seq_shift (List.length r) 1), map_map.
    apply map_ext_in. intros i Hi. apply in_seq in Hi.
    destruct i as [| j]; [lia |]. symmetry. apply title_cased_at_shift.
Qed.

Lemma title_is_title_cased :
  forall code,
    is_ascii code = true ->
    title (replace_char "_" " " code) = title_cased (ustr code).
Proof.
  intros code H. unfold title, title_cased, ustr, is_ascii in *.
  rewrite chars_replace_char.
  change (title_from false) with (title_from (is_ascii_letter 0)).
  rewrite (title_from_positions _ 0%N H).
  rewrite length_map.
  rewrite <- (seq_shift (List.length (chars code)) 0), map_map.
  apply map_ext. intros [| j]; reflexivity.
Qed.

Lemma unlisted_falls_through :
  forall instrument,
    unlisted instrument = true ->
    _format_camera_name instrument = Ok (title (replace_char "_" " " instrument)).
Proof.
  intros instrument H. rewrite format_camera_name_refines.
  unfold camera_name_policy, unlisted in *.
  apply negb_true_iff in H.
  assert (Hnone : forall f, (forall e, f e = true -> startswith instrument (fst e) = true) ->
                      find f camera_map = None).
  { intros f Hf. destruct (find f camera_map) as [e |] eqn:E; [| reflexivity].
    apply find_some in E. destruct E as [Hin He].
    assert (existsb (fun entry => startswith instrument (fst entry)) camera_map = true)
      by (apply existsb_exists; exists e; split; [exact Hin | now apply Hf]).
    congruence. }
  rewrite (Hnone (fun entry => String.eqb instrument (fst entry))).
  - rewrite (Hnone (fun entry => startswith instrument (fst entry))); [reflexivity |].
    intros e He. exact He.
  - intros e He. apply String.eqb_eq in He. rewrite He.
    apply startswith_iff. exists EmptyString.
    clear. induction (fst e) as [| c s IH]; simpl; [reflexivity | now rewrite <- IH].
Qed.

(** C3: for every instrument code the mapper returns, without raising,
    the label of the exact table entry, else the label of the first entry
    whose key the code starts with, else the code with underscores
    replaced by spaces and title-cased.  For a code of ASCII characters
    that no key is a prefix of, the result is given position by position:
    an underscore becomes a space, a letter at the start or after a
    character that is not a letter is a capital, a letter after a letter
    is small.  MAST_LEFT and MAST_LEFT_B give Mast Camera - Left (the
    second through the prefix rule), XYZ_FOO gives Xyz Foo, and so do
    xyz_foo and xYZ_fOO; nav2b gives Nav2B. *)
Theorem format_camera_name_policy :
  forall instrument,
    _format_camera_name instrument = Ok (camera_name_policy instrument)
    /\ (is_ascii instrument = true -> unlisted instrument = true ->
        _format_camera_name instrument = Ok (title_cased (ustr instrument)))
    /\ _format_camera_name "MAST_LEFT" = Ok (ustr "Mast Camera - Left")
    /\ has_key "MAST_LEFT_B" camera_map = false
    /\ _format_camera_name "MAST_LEFT_B" = Ok (ustr "Mast Camera - Left")
    /\ _format_camera_name "XYZ_FOO" = Ok (ustr "Xyz Foo")
    /\ _format_camera_name "XYZ_FOO" = Ok [88; 121; 122; 32; 70; 111; 111]%N
    /\ _format_camera_name "xyz_foo" = Ok [88; 121; 122; 32; 70; 111; 111]%N
    /\ _format_camera_name "xYZ_fOO" = Ok [88; 121; 122; 32; 70; 111; 111]%N
    /\ _format_camera_name "nav2b" = Ok [78; 97; 118; 50; 66]%N
    /\ title_cased (ustr "chem_cam") = [67; 104; 101; 109; 32; 67; 97; 109]%N.
Proof.
  intro instrument.
  split; [apply format_camera_name_refines |].
  split.
  - intros Hascii Hunlisted.
    rewrite (unlisted_falls_through _ Hunlisted).
    now rewrite (title_is_title_cased _ Hascii).
  - repeat split; vm_compute; reflexivity.
Qed.

Lemma format_camera_name_policy_witness :
  _format_camera_name "xyz_foo" = Ok (title_cased (ustr "xyz_foo")).
Proof.
  destruct (format_camera_name_policy "xyz_foo") as (_ & H & _).
  apply H; reflexivity.
Defined.

(** An exact entry wins over an earlier key that is a prefix of it. *)
Lemma format_camera_name_exact_first :
  _format_camera_name "NAV_LEFT_B" = Ok (ustr "Navigation Camera - Left B")
  /\ startswith "NAV_LEFT_B" "NAV_LEFT" = true
  /\ _format_camera_name "NAV_LEFT_B2" = Ok (ustr "Navigation Camera - Left").
Proof. repeat split; vm_compute; reflexivity. Qed.

End CameraNameFacts.

(** ** The rover gate *)

Section GateFacts.

Lemma lower_capital :
  forall r,
    in_range 97 122 (cp r) = true ->
    lower_char (ascii_of_N (cp r - 32)) = r /\ lower_char r = r.
Proof.
  intros r H.
  destruct r as [[] [] [] [] [] [] [] []];
    vm_compute in H; try discriminate H; split; reflexivity.
Qed.

Lemma capitalisation_lower :
  forall reference s,
    capitalisation_of reference s ->
    lower reference = reference ->
    lower s = reference.
Proof.
  induction reference as [| r reference IH]; intros [| c s] Hcap Hlow;
    simpl in *; try contradiction; [reflexivity |].
  destruct Hcap as [Hc Hrest].
  injection Hlow as Hr Hlow'.
  rewrite (IH s Hrest Hlow').
  destruct Hc as [-> | [Hrange ->]].
  - now rewrite Hr.
  - now rewrite (proj1 (lower_capital r Hrange)).
Qed.

(** C5 as amended: a rover name whose lower-case form is not the
    supported name gets the unsupported-rover warning and [None], and no
    request is sent. *)
Theorem unsupported_rover_sends_nothing :
  forall rover_name num_photos w,
    lower rover_name <> "curiosity"%string ->
    get_rover_photos rover_name num_photos w =
    (Ok None,
     mkWorld (net w) (sent w)
       (notices w ++ [WarningUnsupportedRover (title (lower rover_name))])).
Proof.
  intros rover_name num_photos w H.
  unfold get_rover_photos.
  apply String.eqb_neq in H. rewrite H. reflexivity.
Qed.

Lemma unsupported_rover_sends_nothing_witness :
  get_rover_photos "perseverance" 5 (fresh (always Failed)) =
  (Ok None,
   mkWorld (always Failed) [] [WarningUnsupportedRover (ustr "Perseverance")]).
Proof.
  apply (unsupported_rover_sends_nothing "perseverance" 5 (fresh (always Failed))).
  discriminate.
Defined.

(** C5 as stated fails: the name Curiosity differs from the supported
    name, yet the call sends the manifest request and shows no
    unsupported-rover warning. *)
Lemma unequal_name_passes_gate :
  "Curiosity"%string <> "curiosity"%string
  /\ sent (snd (get_rover_photos "Curiosity" 5 (fresh (always Failed))))
     = [mkRequest MSL_MANIFEST_URL None 10]
  /\ notices (snd (get_rover_photos "Curiosity" 5 (fresh (always Failed))))
     = [ErrorNetwork; ErrorNoManifest].
Proof. split; [discriminate | split; vm_compute; reflexivity]. Qed.

End GateFacts.

(** ** What a call can add to the page and to the network log *)

Section GrowthFacts.

Variable P : notice -> Prop.

Lemma grows_ret : forall A (a : A), grows P (ret a).
Proof.
  intros A a w. exists [], []. simpl. rewrite !app_nil_r. auto.
Qed.

Lemma grows_lift : forall A (r : result A), grows P (lift r).
Proof.
  intros A r w. exists [], []. simpl. rewrite !app_nil_r. auto.
Qed.

Lemma grows_show : forall n, P n -> grows P (show n).
Proof.
  intros n Hn w. exists [], [n]. simpl. rewrite app_nil_r. auto.
Qed.

Lemma grows_bind :
  forall A B (m : M A) (k : A -> M B),
    grows P m -> (forall a, grows P (k a)) -> grows P (bind m k).
Proof.
  intros A B m k Hm Hk w. unfold bind.
  destruct (Hm w) as (rq1 & ex1 & Hnet1 & Hsent1 & Hnot1 & HP1).
  destruct (m w) as [[a | e] w1]; simpl in *.
  - destruct (Hk a w1) as (rq2 & ex2 & Hnet2 & Hsent2 & Hnot2 & HP2).
    exists (rq1 ++ rq2), (ex1 ++ ex2).
    rewrite Hnet2, Hsent2, Hnot2, Hnet1, Hsent1, Hnot1, !app_assoc.
    repeat split; try reflexivity. apply Forall_app; auto.
  - exists rq1, ex1. auto.
Qed.

Hypothesis gateway_notices :
  P ErrorTimeout /\ P ErrorRateLimit /\ P ErrorNetwork /\ forall s, P (ErrorHTTP s).

Lemma grows_make_request :
  forall u params timeout, grows P (_make_request u params timeout).
Proof.
  intros u params timeout w.
  destruct gateway_notices as (Pt & Pr & Pn & Ph).
  rewrite make_request_unfold. cbv zeta.
  destruct (net w (sent w) _) as [| | r];
    [eexists; eexists; simpl; repeat split; auto ..|].
  destruct ((400 <=? status_code r) && (status_code r <? 600)).
  - destruct (status_code r =? 429);
      eexists; eexists; simpl; repeat split; auto.
  - destruct (body r).
    + exists [mkRequest u params
                (match timeout with Some t => t | None => default_timeout end)], [].
      simpl. rewrite app_nil_r. auto.
    + eexists; eexists; simpl; repeat split; auto.
Qed.

End GrowthFacts.

Section CapitalisationFacts.

Ltac grows_step :=
  first
    [ apply grows_ret
    | apply grows_lift
    | apply grows_show; reflexivity
    | apply grows_make_request; repeat split
    | apply grows_bind; [| intro] ].

Lemma photos_of_payload_grows :
  forall latest_sol sol_data num_photos,
    grows supported (photos_of_payload latest_sol sol_data num_photos).
Proof.
  intros latest_sol sol_data num_photos. unfold photos_of_payload.
  destruct (negb (Py.truthy sol_data)); [repeat grows_step |].
  grows_step; [grows_step |].
  destruct (negb a); [repeat grows_step |].
  grows_step; [grows_step |].
  grows_step; [grows_step |].
  destruct a1 as [[| img images] | [| c images]]; repeat grows_step.
Qed.

Lemma photos_of_manifest_grows :
  forall manifest_data num_photos,
    grows supported (photos_of_manifest manifest_data num_photos).
Proof.
  intros manifest_data num_photos. unfold photos_of_manifest.
  destruct (negb (Py.truthy manifest_data)); [repeat grows_step |].
  grows_step; [grows_step |].
  destruct (negb (Py.truthy a)); [repeat grows_step |].
  grows_step; [grows_step |].
  destruct a0; repeat grows_step; apply photos_of_payload_grows.
Qed.

(** C10: every capitalisation of the supported name lower-cases to it, so
    the call behaves as for the supported name itself: the manifest
    request is sent first and no unsupported-rover warning is shown. *)
Theorem capitalisation_passes_gate :
  forall rover_name,
    capitalisation_of "curiosity" rover_name ->
    forall num_photos w,
      lower rover_name = "curiosity"%string
      /\ get_rover_photos rover_name num_photos w
         = get_rover_photos "curiosity" num_photos w
      /\ (exists later,
            sent (snd (get_rover_photos rover_name num_photos w))
            = sent w ++ mkRequest MSL_MANIFEST_URL None 10 :: later)
      /\ (exists extra,
            notices (snd (get_rover_photos rover_name num_photos w))
            = notices w ++ extra
            /\ Forall (fun n => is_unsupported_warning n = false) extra).
Proof.
  intros rover_name Hcap num_photos w.
  assert (Hlow : lower rover_name = "curiosity"%string)
    by (apply capitalisation_lower; [exact Hcap | reflexivity]).
  assert (Hsame : get_rover_photos rover_name num_photos w
                  = get_rover_photos "curiosity" num_photos w)
    by (unfold get_rover_photos; rewrite Hlow; reflexivity).
  split; [exact Hlow | split; [exact Hsame |]].
  rewrite Hsame. clear Hcap Hlow Hsame.
  change (get_rover_photos "curiosity" num_photos)
    with (bind (_make_request MSL_MANIFEST_URL None None)
            (fun manifest_data => photos_of_manifest manifest_data num_photos)).
  unfold bind.
  destruct (make_request_sends_once MSL_MANIFEST_URL None None w)
    as ((j & Hok) & Hsent & _).
  assert (Hgrow : grows supported (_make_request MSL_MANIFEST_URL None None))
    by (apply grows_make_request; repeat split).
  destruct (Hgrow w) as (rq1 & ex1 & _ & _ & Hnot1 & HP1).
  destruct (_make_request MSL_MANIFEST_URL None None w) as [[a | e] w1];
    simpl in *; [| discriminate].
  destruct (photos_of_manifest_grows a num_photos w1)
    as (rq2 & ex2 & _ & Hsent2 & Hnot2 & HP2).
  split.
  - exists rq2. rewrite Hsent2, Hsent, <- app_assoc. reflexivity.
  - exists (ex1 ++ ex2). rewrite Hnot2, Hnot1, <- app_assoc.
    split; [reflexivity | apply Forall_app; auto].
Qed.

Lemma capitalisation_passes_gate_witness :
  lower "CURIOSITY" = "curiosity"%string
  /\ get_rover_photos "Curiosity" 5 (fresh (always Failed))
     = get_rover_photos "curiosity" 5 (fresh (always Failed)).
Proof.
  split.
  - apply (capitalisation_passes_gate "CURIOSITY");
      [simpl; intuition (right; split; reflexivity) | exact 5 | exact (fresh (always Failed))].
  - apply (capitalisation_passes_gate "Curiosity").
    simpl; intuition (first [left; reflexivity | right; split; reflexivity]).
Defined.

End CapitalisationFacts.

(** ** Choosing the day to show *)

Section SolSelectionFacts.

Lemma Forall2_reverse :
  forall A B (R : A -> B -> Prop) l l',
    Forall2 R l l' -> Forall2 R (rev l) (rev l').
Proof.
  intros A B R l l' H. induction H; simpl; [constructor |].
  apply Forall2_app; [assumption | repeat constructor; assumption].
Qed.

Lemma find_skips :
  forall A (p : A -> bool) l r,
    Forall (fun x => p x = false) l -> find p (l ++ r) = find p r.
Proof.
  intros A p l r H. induction H as [| x l Hx _ IH]; simpl; [reflexivity |].
  now rewrite Hx.
Qed.

Lemma scan_sols_find :
  forall items days,
    Forall2 encodes_day items days ->
    scan_sols items =
    Ok (match find populated days with
        | Some d => JInt (day_sol d)
        | None => JNull
        end).
Proof.
  intros items days H.
  induction H as [| item d items days Hd _ IH]; [reflexivity |].
  cbn [scan_sols find].
  destruct Hd as [m d Hsol Hcount | m d Hsol Hcount Hzero];
    unfold Py.get, rbind; rewrite Hcount; cbn [Py.gt0]; unfold populated.
  - destruct (0 <? day_num_images d).
    + unfold subscript, Py.getitem. now rewrite Hsol.
    + exact IH.
  - rewrite Hzero. cbn. exact IH.
Qed.

Lemma latest_populated_at :
  forall days pre d post,
    days = pre ++ d :: post ->
    0 < day_num_images d ->
    Forall (fun x => day_num_images x <= 0) post ->
    latest_populated days = Some d.
Proof.
  intros days pre d post -> Hd Hpost. unfold latest_populated.
  rewrite rev_app_distr. cbn [rev]. rewrite <- app_assoc.
  rewrite find_skips.
  - cbn. unfold populated. apply Z.ltb_lt in Hd. now rewrite Hd.
  - apply Forall_rev. eapply Forall_impl; [| exact Hpost].
    intros x Hx. unfold populated. now apply Z.ltb_ge.
Qed.

Lemma latest_populated_none :
  forall days,
    Forall (fun x => day_num_images x <= 0) days ->
    latest_populated days = None.
Proof.
  intros days H. unfold latest_populated.
  rewrite <- (app_nil_r (rev days)). rewrite find_skips; [reflexivity |].
  apply Forall_rev. eapply Forall_impl; [| exact H].
  intros x Hx. unfold populated. now apply Z.ltb_ge.
Qed.

(** C2: for a manifest whose day list holds day summaries, the selection
    is the last day of the list with an image count above zero; the
    per-day request is made for that day.  When no day qualifies, or the
    list is empty, the call returns [None] with a warning and sends
    nothing.  For the days (10,0), (11,3), (12,0) the selection is
    sol 11. *)
Theorem latest_sol_selection :
  forall sols days,
    Forall2 encodes_day sols days ->
    find_latest_sol (JArr sols)
    = Ok (match latest_populated days with
          | Some d => JInt (day_sol d)
          | None => JNull
          end)
    /\ (forall pre d post,
          days = pre ++ d :: post ->
          0 < day_num_images d ->
          Forall (fun x => day_num_images x <= 0) post ->
          latest_populated days = Some d)
    /\ (Forall (fun x => day_num_images x <= 0) days ->
        latest_populated days = None)
    /\ (forall m num_photos w,
          Py.lookup "sols" m = Some (JArr sols) ->
          photos_of_manifest (JObj m) num_photos w =
          match latest_populated days with
          | Some d =>
              (sol_data <- _make_request (MSL_SOL_IMAGES_URL (JInt (day_sol d)))
                             None None ;;
               photos_of_payload (JInt (day_sol d)) sol_data num_photos)%M w
          | None =>
              (Ok None,
               mkWorld (net w) (sent w)
                 (notices w ++ [match sols with
                                | [] => WarningNoImageData
                                | _ => WarningNoRecentPhotos
                                end]))
          end)
    /\ find_latest_sol (JArr [day_json 10 0; day_json 11 3; day_json 12 0])
       = Ok (JInt 11).
Proof.
  intros sols days H.
  assert (Hfind : find_latest_sol (JArr sols)
                  = Ok (match latest_populated days with
                        | Some d => JInt (day_sol d)
                        | None => JNull
                        end)).
  { unfold find_latest_sol, reversed, rbind, latest_populated.
    apply scan_sols_find. now apply Forall2_reverse. }
  split; [exact Hfind |].
  split; [intros pre d post; apply latest_populated_at |].
  split; [apply latest_populated_none |].
  split; [| reflexivity].
  intros m num_photos w Hsols.
  unfold photos_of_manifest.
  assert (Hm : Py.truthy (JObj m) = true) by (destruct m; [discriminate | reflexivity]).
  rewrite Hm. cbn [negb]. unfold bind at 1. unfold lift at 1.
  unfold Py.get. rewrite Hsols.
  destruct sols as [| s sols'].
  - inversion H; subst. reflexivity.
  - change (Py.truthy (JArr (s :: sols'))) with true. cbn [negb].
    unfold bind at 1. unfold lift at 1. rewrite Hfind.
    destruct (latest_populated days); reflexivity.
Qed.

Lemma latest_sol_selection_witness :
  latest_populated [mkDay 10 0; mkDay 11 3; mkDay 12 0] = Some (mkDay 11 3)
  /\ sent (snd (photos_of_manifest
                 (JObj [("sols", JArr [day_json 10 0; day_json 11 3; day_json 12 0])]%string)
                 5 (fresh (always Failed))))
     = [mkRequest (MSL_SOL_IMAGES_URL (JInt 11)) None 10].
Proof.
  assert (H : Forall2 encodes_day
                [day_json 10 0; day_json 11 3; day_json 12 0]
                [mkDay 10 0; mkDay 11 3; mkDay 12 0])
    by (repeat constructor).
  destruct (latest_sol_selection _ _ H) as (_ & Hat & _ & Hcall & _).
  split.
  - apply (Hat [mkDay 10 0] (mkDay 11 3) [mkDay 12 0]);
      [reflexivity | simpl; lia | repeat constructor; simpl; lia].
  - rewrite (Hcall [("sols", JArr [day_json 10 0; day_json 11 3; day_json 12 0])]%string
               5 (fresh (always Failed)) eq_refl).
    reflexivity.
Defined.

End SolSelectionFacts.

(** ** From the per-day payload to the photo records *)

Section PhotoFacts.

Lemma contains_single :
  forall a s, contains (String a EmptyString) s = contains_char a s.
Proof.
  intros a s. induction s as [| c s IH]; [reflexivity |].
  cbn [contains contains_char startswith]. rewrite IH.
  rewrite andb_true_r, Ascii.eqb_sym. reflexivity.
Qed.

Lemma split_first_without :
  forall a s, contains_char a s = false -> split_first a s = s.
Proof.
  intros a s. induction s as [| c s IH]; simpl; [reflexivity |].
  destruct (Ascii.eqb c a); simpl; [discriminate |].
  intro H. now rewrite IH.
Qed.

Lemma split_first_spec :
  forall s, before_separator s (split_first "T" s).
Proof.
  induction s as [| c s IH]; [right; split; reflexivity |].
  cbn [split_first]. destruct (Ascii.eqb c "T") eqn:E.
  - apply Ascii.eqb_eq in E. subst c. left. exists s. split; reflexivity.
  - destruct IH as [(rest & Hs & Hnone) | (Hnone & Hd)].
    + left. exists rest. split.
      * cbn [append]. now rewrite <- Hs.
      * cbn [contains_char]. now rewrite E, Hnone.
    + right. split.
      * cbn [contains_char]. now rewrite E, Hnone.
      * now rewrite Hd.
Qed.

Lemma get_field :
  forall m k default, Py.get (JObj m) k default = Ok (field m k default).
Proof. reflexivity. Qed.

Lemma photo_record_of_entry :
  forall latest_sol img e,
    encodes_image latest_sol img e ->
    photo_record latest_sol img = Ok (photo_of e).
Proof.
  intros latest_sol img e H.
  destruct H as [m e Hid Hurl Hutc Hins Hsol].
  unfold photo_record. rewrite !get_field.
  cbn [rbind]. rewrite Hutc, Hins, Hsol, Hid, Hurl.
  unfold earth_date_of, Py.str_in. rewrite contains_single. cbn [rbind].
  cbn [format_camera_name_of]. rewrite format_camera_name_refines. cbn [rbind].
  unfold photo_of.
  destruct (contains_char "T" (image_utc e)) eqn:T; [reflexivity |].
  now rewrite (split_first_without _ _ T).
Qed.

Lemma for_each_photo_records :
  forall latest_sol imgs entries,
    Forall2 (encodes_image latest_sol) imgs entries ->
    for_each (photo_record latest_sol) imgs = Ok (map photo_of entries).
Proof.
  intros latest_sol imgs entries H.
  induction H as [| img e imgs entries He _ IH]; [reflexivity |].
  cbn [for_each map]. rewrite (photo_record_of_entry _ _ _ He). cbn [rbind].
  rewrite IH. reflexivity.
Qed.

Lemma Forall2_firstn :
  forall A B (R : A -> B -> Prop) n l l',
    Forall2 R l l' -> Forall2 R (firstn n l) (firstn n l').
Proof.
  intros A B R n l l' H. revert n.
  induction H; intros [| n]; simpl; constructor; auto.
Qed.

(** C7 as amended: for a per-day payload whose image list is not empty
    and holds image entries, and a requested count of at least one, the
    call returns the records of the first min(N, length) entries, in the
    order of the list; the date of each record is the part of the
    entry's timestamp before its first T, or the whole timestamp when it
    has no T. *)
Theorem photos_are_list_prefix :
  forall latest_sol m imgs entries num_photos w,
    Py.lookup "images" m = Some (JArr imgs) ->
    Forall2 (encodes_image latest_sol) imgs entries ->
    imgs <> [] ->
    1 <= num_photos ->
    let shown := firstn (Z.to_nat num_photos) entries in
    photos_of_payload latest_sol (JObj m) num_photos w
    = (Ok (Some (map photo_of shown)), w)
    /\ List.length (map photo_of shown)
       = Nat.min (Z.to_nat num_photos) (List.length imgs)
    /\ map PhotoRecord.id (map photo_of shown) = map image_id shown
    /\ (exists rest, entries = shown ++ rest)
    /\ Forall (fun e =>
                 exists date,
                   PhotoRecord.earth_date (photo_of e) = JStr date
                   /\ before_separator (image_utc e) date) shown.
Proof.
  intros latest_sol m imgs entries num_photos w Hm H Hne Hn shown.
  assert (Hlen : List.length imgs = List.length entries)
    by (eapply Forall2_length; exact H).
  split; [| split; [| split; [| split]]].
  - unfold photos_of_payload.
    assert (Ht : Py.truthy (JObj m) = true)
      by (destruct m; [discriminate | reflexivity]).
    rewrite Ht. cbn [negb]. unfold Py.str_in, Py.mem. rewrite Hm.
    unfold bind at 1. unfold lift at 1. cbn [negb].
    unfold subscript, Py.getitem. rewrite Hm.
    unfold bind at 1. unfold lift at 1.
    unfold slice_images, slice_to.
    assert (Hneg : (num_photos <? 0) = false) by (apply Z.ltb_ge; lia).
    rewrite Hneg. unfold bind at 1. unfold lift at 1.
    pose proof (Forall2_firstn _ _ _ (Z.to_nat num_photos) _ _ H) as Hcut.
    fold shown in Hcut.
    pose proof (for_each_photo_records _ _ _ Hcut) as Hrec.
    destruct (firstn (Z.to_nat num_photos) imgs) as [| img rest] eqn:Ecut.
    + exfalso. destruct imgs as [| i0 imgs0]; [now apply Hne |].
      destruct (Z.to_nat num_photos) eqn:En; [lia | discriminate].
    + unfold bind, lift. rewrite Hrec. reflexivity.
  - rewrite length_map. unfold shown. rewrite length_firstn, Hlen. reflexivity.
  - rewrite map_map. reflexivity.
  - exists (skipn (Z.to_nat num_photos) entries). unfold shown.
    symmetry. apply firstn_skipn.
  - apply Forall_forall. intros e _. exists (split_first "T" (image_utc e)).
    split; [reflexivity | apply split_first_spec].
Qed.

End PhotoFacts.

Section PhotoExamples.

Lemma photos_are_list_prefix_witness :
  photos_of_payload (JInt 11) sample_payload 2 (fresh (always Failed))
  = (Ok (Some
           [PhotoRecord.mk (JStr "NLB_1") (JStr "https://mars.nasa.gov/NLB_1")
              (ustr "Mast Camera - Left") (JStr "MAST_LEFT_B") 11
              (JStr "2024-01-02") "Curiosity";
            PhotoRecord.mk (JStr "NLB_2") (JStr "https://mars.nasa.gov/NLB_2")
              (ustr "Xyz Foo") (JStr "XYZ_FOO") 11
              (JStr "2024-01-02") "Curiosity"]),
     fresh (always Failed)).
Proof.
  assert (H : Forall2 (encodes_image (JInt 11))
                [sample_first_image; sample_second_image; sample_third_image]
                [mkImage (JStr "NLB_1") (JStr "https://mars.nasa.gov/NLB_1")
                   "2024-01-02T03:04:05Z" "MAST_LEFT_B" 11;
                 mkImage (JStr "NLB_2") (JStr "https://mars.nasa.gov/NLB_2")
                   "2024-01-02" "XYZ_FOO" 11;
                 mkImage (JStr "NLB_3") (JStr "https://mars.nasa.gov/NLB_3")
                   "2024-01-02T09:00:00Z" "MAHLI" 11])
    by (repeat constructor).
  destruct (photos_are_list_prefix (JInt 11)
              [("images", JArr [sample_first_image; sample_second_image; sample_third_image])]%string
              _ _ 2 (fresh (always Failed)) eq_refl H)
    as (Hcall & _); [discriminate | lia |].
  exact Hcall.
Defined.

(** C7 as stated fails: with a requested count of 0 the call returns
    [None] and a warning, not the empty prefix; with a count of -1 it
    returns all entries but the last. *)
Lemma zero_count_is_no_data :
  photos_of_payload (JInt 11) sample_payload 0 (fresh (always Failed))
  = (Ok None, mkWorld (always Failed) [] [WarningNoImages (JInt 11)])
  /\ fst (photos_of_payload (JInt 11) sample_payload 0 (fresh (always Failed)))
     <> Ok (Some [])
  /\ Nat.min (Z.to_nat 0) 3 = 0%nat
  /\ option_map (@List.length _)
       (match fst (photos_of_payload (JInt 11) sample_payload (-1) (fresh (always Failed))) with
        | Ok r => r
        | Raise _ => None
        end) = Some 2%nat.
Proof.
  split; [vm_compute; reflexivity |].
  split; [vm_compute; discriminate |].
  split; vm_compute; reflexivity.
Qed.

(** The whole call on a network that serves a manifest and that sample_payload. *)
Lemma get_rover_photos_end_to_end :
  let network (_ : list request) (rq : request) :=
    match req_url rq with
    | MSL_MANIFEST_URL =>
        answers 200 (JObj [("sols", JArr [day_json 10 0; day_json 11 3; day_json 12 0])]%string)
    | MSL_SOL_IMAGES_URL (JInt 11) => answers 200 sample_payload
    | _ => Responded (mkResponse 404 None)
    end in
  let out := get_rover_photos "curiosity" 5 (fresh network) in
  option_map (map PhotoRecord.id)
    (match fst out with Ok r => r | Raise _ => None end)
  = Some [JStr "NLB_1"; JStr "NLB_2"; JStr "NLB_3"]
  /\ map req_url (sent (snd out)) = [MSL_MANIFEST_URL; MSL_SOL_IMAGES_URL (JInt 11)]
  /\ notices (snd out) = [].
Proof. repeat split; vm_compute; reflexivity. Qed.

End PhotoExamples.

(** ** The weather normaliser *)

Section WeatherFacts.

Lemma insert_desc_perm :
  forall r l, Permutation (insert_desc r l) (r :: l).
Proof.
  intros r l. induction l as [| x l IH]; simpl; [reflexivity |].
  destruct (WeatherRecord.sol x <=? WeatherRecord.sol r); [reflexivity |].
  rewrite IH. apply perm_swap.
Qed.

Lemma sort_values_desc_perm :
  forall df, Permutation (sort_values_desc df) df.
Proof.
  induction df as [| r df IH]; simpl; [reflexivity |].
  rewrite insert_desc_perm. now constructor.
Qed.

Lemma insert_desc_sorted :
  forall r l,
    descending (map WeatherRecord.sol l) ->
    descending (map WeatherRecord.sol (insert_desc r l)).
Proof.
  intros r l H. induction l as [| x l IH]; simpl.
  - repeat constructor.
  - simpl in H. inversion H as [| a t Ht Hall]; subst.
    destruct (WeatherRecord.sol x <=? WeatherRecord.sol r) eqn:E.
    + apply Z.leb_le in E. simpl. constructor; [exact H |].
      constructor; [exact E |].
      eapply Forall_impl; [| exact Hall]. intros a Ha. simpl in Ha. lia.
    + apply Z.leb_gt in E. simpl. constructor; [now apply IH |].
      assert (Hp : Permutation (map WeatherRecord.sol (insert_desc r l))
                     (map WeatherRecord.sol (r :: l)))
        by (apply Permutation_map, insert_desc_perm).
      eapply Permutation_Forall; [symmetry; exact Hp |].
      simpl. constructor; [lia | exact Hall].
Qed.

Lemma sort_values_desc_sorted :
  forall df, descending (map WeatherRecord.sol (sort_values_desc df)).
Proof.
  induction df as [| r df IH]; simpl; [constructor |].
  now apply insert_desc_sorted.
Qed.

Lemma for_each_map :
  forall A B (body : A -> result B) (g : A -> B) l,
    (forall x, In x l -> body x = Ok (g x)) ->
    for_each body l = Ok (map g l).
Proof.
  intros A B body g l H. induction l as [| x l IH]; [reflexivity |].
  cbn [for_each map]. rewrite (H x (or_introl eq_refl)). cbn [rbind].
  rewrite IH; [reflexivity |]. intros y Hy. apply H. now right.
Qed.

Lemma get_members :
  forall d k,
    object_or_missing d k ->
    Py.get (JObj d) k (JObj []) = Ok (JObj (members d k)).
Proof.
  intros d k H. unfold Py.get, members, object_or_missing in *.
  destruct (Py.lookup k d) as [[] |]; try contradiction; reflexivity.
Qed.

Lemma weather_record_of_day_key :
  forall m k, day_key m k -> weather_record m k = Ok (record_of_key m k).
Proof.
  intros m k [(d & Hk & Hat & Hpre) (n & Hn)].
  unfold weather_record, record_of_key, sol_number, day_entry, Py.getitem.
  rewrite Hk, Hn. cbn [rbind].
  rewrite (get_members _ _ Hat), (get_members _ _ Hpre), !get_field.
  reflexivity.
Qed.

(** On a payload whose digit keys are all readable the normaliser
    produces one record per digit key, ordered by descending sol; with
    no digit key it returns [None] and shows the no-data warning.  Keys
    that are not digit strings play no part. *)
Lemma weather_of_readable_payload :
  forall m w,
    (forall k, In k (filter isdigit (Py.keys m)) -> day_key m k) ->
    let sol_keys := filter isdigit (Py.keys m) in
    let records := map (record_of_key m) sol_keys in
    match sol_keys with
    | [] =>
        weather_of_payload (JObj m) w
        = (Ok None, mkWorld (net w) (sent w) (notices w ++ [WarningNoWeather]))
    | _ =>
        weather_of_payload (JObj m) w = (Ok (Some (sort_values_desc records)), w)
    end
    /\ Permutation (sort_values_desc records) records
    /\ List.length (sort_values_desc records) = List.length sol_keys
    /\ descending (map WeatherRecord.sol (sort_values_desc records)).
Proof.
  intros m w H sol_keys records.
  split; [| split; [apply sort_values_desc_perm | split]].
  - unfold weather_of_payload. fold sol_keys.
    pose proof (for_each_map _ _ (weather_record m) (record_of_key m) sol_keys
                  (fun k Hk => weather_record_of_day_key m k (H k Hk))) as E.
    destruct sol_keys as [| k ks]; [reflexivity |].
    unfold bind, lift. rewrite E. reflexivity.
  - rewrite (Permutation_length (sort_values_desc_perm records)).
    unfold records. apply length_map.
  - apply sort_values_desc_sorted.
Qed.

(** A missing temperature or pressure object, or a missing member of
    one, gives [None] for the attribute; a missing season gives the text
    Unknown. *)
Lemma day_record_defaults :
  forall n d,
    (Py.lookup "AT" d = None ->
     WeatherRecord.min_temp_c (day_record n d) = JNull
     /\ WeatherRecord.max_temp_c (day_record n d) = JNull
     /\ WeatherRecord.avg_temp_c (day_record n d) = JNull)
    /\ (Py.lookup "PRE" d = None ->
        WeatherRecord.pressure_pa (day_record n d) = JNull)
    /\ (forall t, Py.lookup "AT" d = Some (JObj t) ->
        Py.lookup "mn" t = None ->
        WeatherRecord.min_temp_c (day_record n d) = JNull)
    /\ (forall t, Py.lookup "PRE" d = Some (JObj t) ->
        Py.lookup "av" t = None ->
        WeatherRecord.pressure_pa (day_record n d) = JNull)
    /\ (Py.lookup "Season" d = None ->
        WeatherRecord.season (day_record n d) = JStr "Unknown").
Proof.
  intros n d. unfold day_record, members, field. simpl.
  repeat split; intros; repeat match goal with H : _ = _ |- _ => rewrite H end;
    reflexivity.
Qed.

(** The payload of the specification's example: keys 0, 1, [sol_keys]
    and [validity_checks] give two records, sol 1 first. *)
Lemma weather_example_two_days :
  forall w,
    exists first second,
      weather_of_payload
        (JObj [("0", sample_day); ("1", JObj []); ("sol_keys", JArr [JStr "0"; JStr "1"]);
               ("validity_checks", JObj [])]%string) w
      = (Ok (Some [first; second]), w)
      /\ WeatherRecord.sol first = 1 /\ WeatherRecord.sol second = 0
      /\ WeatherRecord.season first = JStr "Unknown"
      /\ WeatherRecord.min_temp_c first = JNull
      /\ WeatherRecord.season second = JStr "fall".
Proof.
  intro w. eexists. eexists. split; [vm_compute; reflexivity |].
  repeat split.
Qed.

Lemma weather_without_digit_keys :
  forall w,
    weather_of_payload
      (JObj [("sol_keys", JArr []); ("validity_checks", JObj [])]%string) w
    = (Ok None, mkWorld (net w) (sent w) (notices w ++ [WarningNoWeather])).
Proof. reflexivity. Qed.

(** A decimal key can fail to convert as well, by its length. *)
Lemma overlong_key_is_rejected :
  isdigit overlong_key = true
  /\ Py.int_of_str overlong_key = Raise ValueError
  /\ fst (weather_of_payload (JObj [(overlong_key, sample_day)])
            (fresh (always Failed)))
     = Raise ValueError.
Proof. repeat split; vm_compute; reflexivity. Qed.

(** C1: the key U+00B2 does not convert to an integer, yet [isdigit]
    keeps it; a payload whose only key it is makes the normaliser raise
    [ValueError] where no record and the no-data warning are due. *)
Theorem superscript_key_is_not_ignored :
  isdigit superscript_two = true
  /\ Py.int_of_str superscript_two = Raise ValueError
  /\ (forall w,
        weather_of_payload (JObj [(superscript_two, sample_day)]) w
        = (Raise ValueError, w))
  /\ fst (get_mars_weather
            (fresh (always (answers 200 (JObj [(superscript_two, sample_day)])))))
     = Raise ValueError.
Proof.
  split; [reflexivity | split; [reflexivity | split]].
  - intro w. vm_compute. destruct w. reflexivity.
  - vm_compute. reflexivity.
Qed.

(** C6: one malformed digit key aborts the whole batch: with the day
    675 alone the normaliser returns its record; with the key U+00B2
    added to the same payload it raises [ValueError]. *)
Theorem malformed_key_aborts_batch :
  forall w,
    weather_of_payload (JObj [("675", sample_day)]%string) w
    = (Ok (Some [record_of_key [("675", sample_day)]%string "675"]), w)
    /\ isdigit superscript_two = true
    /\ weather_of_payload
         (JObj [("675", sample_day); (superscript_two, JObj [])]%string) w
       = (Raise ValueError, w).
Proof.
  intro w. split; [| split].
  - vm_compute. destruct w. reflexivity.
  - reflexivity.
  - vm_compute. destruct w. reflexivity.
Qed.

End WeatherFacts.

(** * Further properties of the code *)

(** ** Reading decimal numerals *)

Section DecimalFacts.

Lemma decimal_char_facts :
  forall c,
    isdecimal_char c = true ->
    Py.is_int_space c = false
    /\ isdigit_char c = true
    /\ c <> "+"%char /\ c <> "-"%char
    /\ exists d, Py.digit_val c = Some d /\ 0 <= d <= 9.
Proof.
  intros c H.
  destruct c as [[] [] [] [] [] [] [] []]; vm_compute in H; try discriminate H;
    (split; [reflexivity |]); (split; [reflexivity |]);
    (split; [discriminate |]); (split; [discriminate |]);
    eexists; (split; [vm_compute; reflexivity | lia]).
Qed.

Lemma lstrip_unchanged :
  forall c l, Py.is_int_space c = false -> Py.lstrip (c :: l) = c :: l.
Proof. intros c l H. simpl. now rewrite H. Qed.

Lemma strip_unchanged :
  forall first l last,
    Py.is_int_space first = false ->
    Py.is_int_space last = false ->
    Py.strip (first :: l ++ [last]) = first :: l ++ [last].
Proof.
  intros first l last Hf Hl. unfold Py.strip.
  rewrite (lstrip_unchanged _ _ Hf).
  change (first :: l ++ [last]) with ((first :: l) ++ [last]).
  rewrite rev_app_distr. cbn [rev app].
  rewrite (lstrip_unchanged _ _ Hl).
  change (rev (last :: (rev l ++ [first]))) with (rev (rev l ++ [first]) ++ [last])%list.
  rewrite rev_app_distr, rev_involutive. reflexivity.
Qed.

Lemma strip_decimal :
  forall l, Forall (fun c => isdecimal_char c = true) l -> Py.strip l = l.
Proof.
  intros l H. destruct l as [| first l]; [reflexivity |].
  destruct (rev l) as [| last front] eqn:E.
  - apply (f_equal (@rev _)) in E. rewrite rev_involutive in E. subst l.
    unfold Py.strip. inversion H as [| ? ? Hc _]; subst.
    destruct (decimal_char_facts _ Hc) as (Hs & _).
    rewrite (lstrip_unchanged _ _ Hs). cbn [rev app].
    rewrite (lstrip_unchanged _ _ Hs). reflexivity.
  - apply (f_equal (@rev _)) in E. rewrite rev_involutive in E. cbn [rev] in E.
    subst l. inversion H as [| ? ? Hc Hrest]; subst.
    apply Forall_app in Hrest. destruct Hrest as [_ Hlast].
    inversion Hlast as [| ? ? Hl _]; subst.
    apply strip_unchanged.
    + now destruct (decimal_char_facts _ Hc).
    + now destruct (decimal_char_facts _ Hl).
Qed.

(** Reading a run of decimal digits gives a value and counts them. *)
Lemma int_digits_decimal :
  forall l after acc count,
    Forall (fun c => isdecimal_char c = true) l ->
    (l <> [] \/ after = true) ->
    0 <= acc ->
    exists v,
      Py.int_digits l after acc count = Some (v, (count + List.length l)%nat)
      /\ 0 <= v.
Proof.
  induction l as [| c l IH]; intros after acc count H Hne Hacc.
  - destruct Hne as [Hne | ->]; [now destruct Hne |].
    exists acc. simpl. rewrite Nat.add_0_r. auto.
  - inversion H as [| ? ? Hc Hl]; subst.
    destruct (decimal_char_facts _ Hc) as (_ & _ & _ & _ & d & Hd & Hrange).
    cbn [Py.int_digits]. rewrite Hd.
    destruct (IH true (10 * acc + d) (S count) Hl (or_intror eq_refl)) as (v & Hv & Hpos);
      [lia |].
    exists v. rewrite Hv. cbn [List.length]. rewrite Nat.add_succ_r. auto.
Qed.

Lemma chars_length : forall s, List.length (chars s) = String.length s.
Proof. induction s as [| c s IH]; simpl; [reflexivity | now rewrite IH]. Qed.

Lemma chars_app : forall s t, chars (s ++ t) = (chars s ++ chars t)%list.
Proof.
  induction s as [| c s IH]; intro t; simpl; [reflexivity | now rewrite IH].
Qed.

(** X5: a key made of 1 to 4300 ASCII digits passes the key filter and
    converts to a non-negative integer. *)
Theorem decimal_keys_convert :
  forall k,
    Forall (fun c => isdecimal_char c = true) (chars k) ->
    (1 <= String.length k <= Py.int_max_str_digits)%nat ->
    isdigit k = true /\ exists n, Py.int_of_str k = Ok n /\ 0 <= n.
Proof.
  intros k H [Hmin Hmax]. rewrite <- chars_length in Hmin, Hmax.
  split.
  - unfold isdigit. destruct (chars k) as [| c l] eqn:E; [simpl in Hmin; lia |].
    apply forallb_forall. intros x Hx.
    rewrite Forall_forall in H.
    now destruct (decimal_char_facts x (H x Hx)) as (_ & ? & _).
  - unfold Py.int_of_str. rewrite (strip_decimal _ H).
    destruct (int_digits_decimal (chars k) false 0 0 H) as (v & Hv & Hpos);
      [left; destruct (chars k); [simpl in Hmin; lia | discriminate] | lia |].
    assert (Hbody : match chars k with
                    | "+"%char :: r => (false, r)
                    | "-"%char :: r => (true, r)
                    | _ => (false, chars k)
                    end = (false, chars k)).
    { destruct (chars k) as [| c l] eqn:E; [reflexivity |].
      inversion H as [| ? ? Hc _]; subst.
      destruct (decimal_char_facts c Hc) as (_ & _ & Hplus & Hminus & _).
      destruct c as [[] [] [] [] [] [] [] []]; try reflexivity;
        [now destruct Hplus | now destruct Hminus]. }
    rewrite Hbody, Hv. simpl Nat.add.
    apply Nat.leb_le in Hmax. rewrite Hmax. exists v. auto.
Qed.

Lemma decimal_keys_convert_witness :
  isdigit "0675" = true /\ exists n, Py.int_of_str "0675" = Ok n /\ 0 <= n.
Proof.
  apply (decimal_keys_convert "0675").
  - repeat constructor.
  - split; [simpl; lia | apply Nat.leb_le; vm_compute; reflexivity].
Defined.

End DecimalFacts.

(** ** Day labels *)

Section SolLabelFacts.

Import Helpers.

Lemma uint_chars_decimal :
  forall d, Forall (fun c => isdecimal_char c = true)
              (chars (NilEmpty.string_of_uint d)).
Proof.
  induction d; simpl; constructor; (reflexivity || assumption).
Qed.

Lemma int_digits_uint_acc :
  forall d p count,
    Py.int_digits (chars (NilEmpty.string_of_uint d)) true (Z.pos p) count
    = Some (Z.pos (Pos.of_uint_acc d p),
            (count + List.length (chars (NilEmpty.string_of_uint d)))%nat).
Proof.
  induction d; intros p count;
    [simpl; now rewrite Nat.add_0_r | ..];
    cbn [NilEmpty.string_of_uint chars list_ascii_of_string Py.int_digits
         Pos.of_uint_acc List.length];
    match goal with
    | |- context [Py.digit_val ?c] =>
        let v := eval vm_compute in (Py.digit_val c) in
        change (Py.digit_val c) with v
    end; cbv iota beta;
    match goal with
    | |- Py.int_digits _ true ?z _ = Some (Z.pos (Pos.of_uint_acc _ ?q), _) =>
        replace z with (Z.pos q) by lia
    end;
    rewrite IHd, Nat.add_succ_r; reflexivity.
Qed.

Lemma int_digits_uint :
  forall d after count,
    (d <> Decimal.Nil \/ after = true) ->
    Py.int_digits (chars (NilEmpty.string_of_uint d)) after 0 count
    = Some (Z.of_N (Pos.of_uint d),
            (count + List.length (chars (NilEmpty.string_of_uint d)))%nat).
Proof.
  induction d; intros after count Hne;
    [destruct Hne as [Hne | ->]; [now destruct Hne |];
     simpl; now rewrite Nat.add_0_r | ..];
    cbn [NilEmpty.string_of_uint chars list_ascii_of_string Py.int_digits
         Pos.of_uint List.length];
    match goal with
    | |- context [Py.digit_val ?c] =>
        let v := eval vm_compute in (Py.digit_val c) in
        change (Py.digit_val c) with v
    end; cbv iota beta;
    change (list_ascii_of_string (NilEmpty.string_of_uint d))
      with (chars (NilEmpty.string_of_uint d));
    [ change (10 * 0 + 0) with 0;
      rewrite (IHd true (S count) (or_intror eq_refl)), Nat.add_succ_r; reflexivity
    | match goal with
      | |- Py.int_digits _ true ?z _ = _ =>
          let v := eval vm_compute in z in change z with v
      end;
      rewrite int_digits_uint_acc, Nat.add_succ_r; reflexivity .. ].
Qed.

Lemma decimal_reads_back :
  forall n,
    0 <= n ->
    Forall (fun c => isdecimal_char c = true) (chars (decimal n))
    /\ Py.int_digits (chars (decimal n)) false 0 0
       = Some (n, String.length (decimal n)).
Proof.
  intros n Hn. unfold decimal, NilZero.string_of_uint.
  pose proof (DecimalN.Unsigned.of_to (Z.to_N n)) as Hback.
  unfold N.of_uint in Hback.
  destruct (N.to_uint (Z.to_N n)) as [| | | | | | | | | |] eqn:E;
    [ split; [repeat constructor |];
      simpl in Hback; cbn; f_equal; f_equal; lia
    | split; [apply uint_chars_decimal |];
      rewrite int_digits_uint by (left; discriminate);
      rewrite Hback, Z2N.id by exact Hn;
      rewrite chars_length; reflexivity .. ].
Qed.

(** X6: when [format_sol] returns, its text is "Sol " followed by a
    numeral that [int] reads back as the same sol; a sol with more than
    4300 digits makes it raise [ValueError]. *)
Theorem format_sol_reads_back :
  forall sol,
    (forall label,
       format_sol sol = Ok label ->
       exists numeral,
         label = ("Sol " ++ numeral)%string /\ Py.int_of_str numeral = Ok sol)
    /\ (format_sol sol = Raise ValueError <->
        (Py.int_max_str_digits < String.length (decimal (Z.abs sol)))%nat).
Proof.
  intro sol. unfold format_sol.
  destruct (decimal_reads_back (Z.abs sol) (Z.abs_nonneg sol)) as [Hdec Hread].
  destruct (Nat.leb (String.length (decimal (Z.abs sol))) Py.int_max_str_digits)
    eqn:L.
  - split.
    + intros label H. injection H as <-. eexists. split; [reflexivity |].
      unfold Py.int_of_str.
      destruct (sol <? 0) eqn:S.
      * apply Z.ltb_lt in S.
        cbn [append chars list_ascii_of_string].
        change (list_ascii_of_string (decimal (Z.abs sol)))
          with (chars (decimal (Z.abs sol))).
        assert (Hstrip : Py.strip ("-"%char :: chars (decimal (Z.abs sol)))
                         = "-"%char :: chars (decimal (Z.abs sol))).
        { destruct (rev (chars (decimal (Z.abs sol)))) as [| last front] eqn:E.
          - apply (f_equal (@rev _)) in E. rewrite rev_involutive in E.
            rewrite E in Hread. discriminate Hread.
          - apply (f_equal (@rev _)) in E. rewrite rev_involutive in E.
            cbn [rev] in E. rewrite E.
            apply strip_unchanged; [reflexivity |].
            rewrite E in Hdec. apply Forall_app in Hdec.
            destruct Hdec as [_ Hlast]. inversion Hlast as [| ? ? Hl _]; subst.
            now destruct (decimal_char_facts _ Hl). }
        rewrite Hstrip, Hread, L. f_equal. lia.
      * apply Z.ltb_ge in S.
        cbn [append]. rewrite (strip_decimal _ Hdec).
        assert (Hbody : match chars (decimal (Z.abs sol)) with
                        | "+"%char :: r => (false, r)
                        | "-"%char :: r => (true, r)
                        | _ => (false, chars (decimal (Z.abs sol)))
                        end = (false, chars (decimal (Z.abs sol)))).
        { destruct (chars (decimal (Z.abs sol))) as [| c l] eqn:E; [reflexivity |].
          inversion Hdec as [| ? ? Hc _]; subst.
          destruct (decimal_char_facts c Hc) as (_ & _ & Hplus & Hminus & _).
          destruct c as [[] [] [] [] [] [] [] []]; try reflexivity;
            [now destruct Hplus | now destruct Hminus]. }
        rewrite Hbody, Hread, L. f_equal. lia.
    + split; [discriminate |]. intro H. apply Nat.leb_le in L. lia.
  - split; [discriminate |]. split; [| reflexivity].
    intros _. apply Nat.leb_gt in L. exact L.
Qed.

Lemma format_sol_reads_back_witness :
  exists numeral,
    "Sol -675"%string = ("Sol " ++ numeral)%string
    /\ Py.int_of_str numeral = Ok (-675).
Proof.
  destruct (format_sol_reads_back (-675)) as [H _].
  apply H. reflexivity.
Defined.

End SolLabelFacts.

(** ** Conversions, rounding and colours *)

Section DisplayFacts.

Import Helpers.
Import PrimFloat.

Lemma round_half_even_comp :
  forall p q, (p == q)%Q -> round_half_even p = round_half_even q.
Proof.
  intros p q E. unfold round_half_even.
  rewrite (Qfloor_comp _ _ E).
  assert (E' : (p - inject_Z (Qfloor q) == q - inject_Z (Qfloor q))%Q)
    by (rewrite E; reflexivity).
  rewrite (Qcompare_comp _ _ E' (1 # 2) (1 # 2) (Qeq_refl _)). reflexivity.
Qed.

Lemma round_half_even_nonneg :
  forall q, (0 <= q)%Q -> 0 <= round_half_even q.
Proof.
  intros q H. unfold round_half_even.
  assert (0 <= Qfloor q).
  { change 0 with (Qfloor 0). now apply Qfloor_resp_le. }
  destruct (Qcompare _ _); [destruct (Z.even _) | |]; lia.
Qed.

Lemma string_app_assoc :
  forall s t u : string, ((s ++ t) ++ u = s ++ t ++ u)%string.
Proof.
  induction s as [| c s IH]; intros t u; simpl; [reflexivity | now rewrite IH].
Qed.

Lemma decimal_digit_length :
  forall v, 0 <= v < 10 -> String.length (decimal v) = 1%nat.
Proof.
  intros v H.
  assert (C : v = 0 \/ v = 1 \/ v = 2 \/ v = 3 \/ v = 4 \/ v = 5 \/ v = 6
              \/ v = 7 \/ v = 8 \/ v = 9) by lia.
  repeat (destruct C as [-> | C]; [reflexivity |]). subst. reflexivity.
Qed.

Lemma finite_value_nonneg :
  forall m e, (0 <= finite_value m e)%Q.
Proof.
  intros m e. unfold finite_value.
  destruct (0 <=? e) eqn:E.
  - apply Z.leb_le in E.
    change 0%Q with (inject_Z 0). rewrite <- Zle_Qle.
    apply Z.mul_nonneg_nonneg; [lia | now apply Z.pow_nonneg].
  - discriminate.
Qed.

Lemma fixed_digits_one :
  forall negative magnitude,
    (0 <= magnitude)%Q ->
    let units := round_half_even (magnitude * 10) in
    fixed_digits 1 negative magnitude
    = ((if negative then "-" else EmptyString)
       ++ decimal (units / 10) ++ "." ++ decimal (units mod 10))%string
    /\ String.length (decimal (units mod 10)) = 1%nat
    /\ 0 <= units
    /\ (magnitude - (1 # 20) <= units # 10 <= magnitude + (1 # 20))%Q.
Proof.
  intros negative magnitude Hmag units.
  assert (Hpos : 0 <= units).
  { apply round_half_even_nonneg.
    apply Qmult_le_0_compat; [exact Hmag | discriminate]. }
  assert (Hlen : String.length (decimal (units mod 10)) = 1%nat)
    by (apply decimal_digit_length, Z.mod_pos_bound; lia).
  split; [| split; [exact Hlen | split; [exact Hpos |]]].
  - unfold fixed_digits.
    change (inject_Z (10 ^ Z.of_nat 1)) with (10 # 1)%Q.
    change (10 ^ Z.of_nat 1) with 10.
    replace (round_half_even (magnitude * (10 # 1))) with units by reflexivity.
    unfold pad_zeros. rewrite Hlen. reflexivity.
  - pose proof (round_half_even_nearest (magnitude * 10)) as Hnear.
    fold units in Hnear. apply Qabs_Qle_condition in Hnear.
    assert (E : (units # 10 == inject_Z units * (1 # 10))%Q).
    { rewrite (Qmake_Qdiv units 10). field. }
    rewrite E. destruct Hnear as [Hlo Hhi]. split; lra.
Qed.

Lemma fixed_digits_whole :
  forall negative magnitude,
    (0 <= magnitude)%Q ->
    let units := round_half_even magnitude in
    fixed_digits 0 negative magnitude
    = ((if negative then "-" else EmptyString) ++ decimal units)%string
    /\ 0 <= units
    /\ (magnitude - (1 # 2) <= inject_Z units <= magnitude + (1 # 2))%Q
    /\ ((magnitude - inject_Z (Qfloor magnitude) == 1 # 2)%Q -> Z.even units = true).
Proof.
  intros negative magnitude Hmag units.
  assert (Eone : round_half_even (magnitude * inject_Z (10 ^ Z.of_nat 0)) = units).
  { apply round_half_even_comp. change (inject_Z (10 ^ Z.of_nat 0)) with 1%Q. ring. }
  split; [| split; [| split]].
  - unfold fixed_digits. rewrite Eone.
    change (10 ^ Z.of_nat 0) with 1. rewrite Z.div_1_r. reflexivity.
  - now apply round_half_even_nonneg.
  - pose proof (round_half_even_nearest magnitude) as Hnear.
    fold units in Hnear. apply Qabs_Qle_condition in Hnear.
    destruct Hnear as [Hlo Hhi]. split; lra.
  - intro Htie. unfold units, round_half_even.
    apply Qeq_alt in Htie. rewrite Htie.
    destruct (Z.even (Qfloor magnitude)) eqn:Ev; [exact Ev |].
    rewrite Z.even_add, Ev. reflexivity.
Qed.

(** X8: what [format_temperature] prints for every float, followed by
    the two-code-point unit symbol.  A NaN prints as nan and an infinity
    as inf or -inf; a zero prints as 0.0 and a finite number as its whole
    part, a point and exactly one digit, within 0.05 of its magnitude;
    the minus sign is printed whenever the sign bit is set, also for
    negative zero and when the digits are all zero. *)
Theorem format_temperature_one_decimal :
  forall (t : PrimFloat.float) (unit : string),
    let symbol := [symbol_lead; if String.eqb unit "C" then 67%N else 70%N] in
    let minus := fun negative : bool => if negative then "-"%string else EmptyString in
    match FloatOps.Prim2SF t with
    | SpecFloat.S754_nan =>
        format_temperature (Some t) unit = (ustr "nan" ++ symbol)%list
    | SpecFloat.S754_infinity negative =>
        format_temperature (Some t) unit
        = (ustr (if negative then "-inf" else "inf") ++ symbol)%list
    | SpecFloat.S754_zero negative =>
        format_temperature (Some t) unit
        = (ustr (minus negative ++ "0.0") ++ symbol)%list
    | SpecFloat.S754_finite negative m e =>
        let units := round_half_even (finite_value m e * 10) in
        format_temperature (Some t) unit
        = (ustr (minus negative ++ decimal (units / 10) ++ "."
                 ++ decimal (units mod 10)) ++ symbol)%list
        /\ String.length (decimal (units mod 10)) = 1%nat
        /\ 0 <= units
        /\ (finite_value m e - (1 # 20) <= units # 10
            <= finite_value m e + (1 # 20))%Q
    end.
Proof.
  intros t unit symbol minus.
  rewrite format_temperature_present. fold symbol.
  unfold format_fixed.
  destruct (FloatOps.Prim2SF t) as [negative | negative | | negative m e].
  - destruct negative; reflexivity.
  - destruct negative; reflexivity.
  - reflexivity.
  - destruct (fixed_digits_one negative (finite_value m e) (finite_value_nonneg m e))
      as (Etext & Hlen & Hpos & Hnear).
    cbv zeta. rewrite Etext. repeat split; try assumption; apply Hnear.
Qed.

(** X9: what [format_pressure] prints for every float, followed by
    " Pa".  A NaN prints as nan and an infinity as inf or -inf; a zero
    prints as 0 and a finite number as the integer nearest to its
    magnitude, the even one when the magnitude lies halfway between two
    integers; the minus sign is printed whenever the sign bit is set. *)
Theorem format_pressure_nearest_integer :
  forall p : PrimFloat.float,
    let minus := fun negative : bool => if negative then "-"%string else EmptyString in
    match FloatOps.Prim2SF p with
    | SpecFloat.S754_nan => format_pressure (Some p) = ustr "nan Pa"
    | SpecFloat.S754_infinity negative =>
        format_pressure (Some p) = ustr (if negative then "-inf Pa" else "inf Pa")
    | SpecFloat.S754_zero negative =>
        format_pressure (Some p) = ustr (minus negative ++ "0 Pa")
    | SpecFloat.S754_finite negative m e =>
        let units := round_half_even (finite_value m e) in
        format_pressure (Some p) = ustr (minus negative ++ decimal units ++ " Pa")
        /\ 0 <= units
        /\ (finite_value m e - (1 # 2) <= inject_Z units
            <= finite_value m e + (1 # 2))%Q
        /\ ((finite_value m e - inject_Z (Qfloor (finite_value m e)) == 1 # 2)%Q ->
            Z.even units = true)
    end.
Proof.
  intros p minus.
  unfold format_pressure, format_fixed.
  destruct (FloatOps.Prim2SF p) as [negative | negative | | negative m e].
  - destruct negative; reflexivity.
  - destruct negative; reflexivity.
  - reflexivity.
  - destruct (fixed_digits_whole negative (finite_value m e) (finite_value_nonneg m e))
      as (Etext & Hpos & Hnear & Htie).
    cbv zeta. rewrite Etext, string_app_assoc.
    repeat split; try assumption; apply Hnear.
Qed.

Lemma format_pressure_nearest_integer_witness :
  Z.even (round_half_even (finite_value 6355177208545280 (-43))) = true.
Proof.
  pose proof (format_pressure_nearest_integer 722.5%float) as H.
  change (FloatOps.Prim2SF 722.5%float)
    with (SpecFloat.S754_finite false 6355177208545280 (-43)) in H.
  cbv beta iota zeta in H.
  destruct H as (_ & _ & _ & H). apply H. vm_compute. reflexivity.
Defined.

(** A reading that arrives as NaN is printed as nan, not as N/A; the
    sign of a negative zero and of a small negative number is kept. *)
Lemma format_special_values :
  format_temperature (Some nan) "C" = (ustr "nan" ++ [symbol_lead; 67%N])%list
  /\ format_temperature (Some neg_infinity) "F"
     = (ustr "-inf" ++ [symbol_lead; 70%N])%list
  /\ format_temperature (Some (-0)%float) "C"
     = (ustr "-0.0" ++ [symbol_lead; 67%N])%list
  /\ format_temperature (Some (-0.04)%float) "C"
     = (ustr "-0.0" ++ [symbol_lead; 67%N])%list
  /\ format_temperature (Some 0.25%float) "C"
     = (ustr "0.2" ++ [symbol_lead; 67%N])%list
  /\ format_pressure (Some nan) = ustr "nan Pa"
  /\ format_pressure (Some (-0.5)%float) = ustr "-0 Pa"
  /\ format_pressure (Some 722.5%float) = ustr "722 Pa".
Proof. repeat split; vm_compute; reflexivity. Qed.

(** X10: a warmer temperature never gets a colder colour, and equal
    temperatures get the same colour. *)
Theorem temperature_colour_is_monotone :
  forall a b : Q,
    ((a <= b)%Q ->
     warmth (get_temperature_color (Some a)) <= warmth (get_temperature_color (Some b)))
    /\ ((a == b)%Q ->
        get_temperature_color (Some a) = get_temperature_color (Some b)).
Proof.
  intros a b. unfold get_temperature_color.
  split; intro H;
    destruct (Qlt_le_dec 0 a), (Qlt_le_dec 0 b),
             (Qlt_le_dec (-40 # 1) a), (Qlt_le_dec (-40 # 1) b),
             (Qlt_le_dec (-80 # 1) a), (Qlt_le_dec (-80 # 1) b);
    try (vm_compute; congruence); try reflexivity; exfalso; lra.
Qed.

Lemma temperature_colour_is_monotone_witness :
  warmth (get_temperature_color (Some (-96 # 1)%Q))
  <= warmth (get_temperature_color (Some (-15 # 1)%Q)).
Proof.
  destruct (temperature_colour_is_monotone (-96 # 1) (-15 # 1)) as [H _].
  apply H. discriminate.
Defined.

End DisplayFacts.

(** ** The weather call as a whole *)

Section WeatherCallFacts.

Lemma make_request_failed :
  forall u params w n,
    failure_notice (net w (sent w) (mkRequest u params 10)) = Some n ->
    _make_request u params None w
    = (Ok JNull,
       mkWorld (net w) (sent w ++ [mkRequest u params 10]) (notices w ++ [n])).
Proof.
  intros u params w n H.
  rewrite make_request_unfold. cbv zeta. unfold default_timeout.
  unfold failure_notice in H.
  destruct (net w (sent w) _) as [| | r].
  - now injection H as <-.
  - now injection H as <-.
  - destruct ((400 <=? status_code r) && (status_code r <? 600)).
    + destruct (status_code r =? 429); now injection H as <-.
    + destruct (body r); [discriminate | now injection H as <-].
Qed.

Lemma make_request_answered :
  forall u params w,
    failure_notice (net w (sent w) (mkRequest u params 10)) = None ->
    exists r j,
      net w (sent w) (mkRequest u params 10) = Responded r
      /\ body r = Some j
      /\ _make_request u params None w
         = (Ok j, mkWorld (net w) (sent w ++ [mkRequest u params 10]) (notices w)).
Proof.
  intros u params w H.
  rewrite make_request_unfold. cbv zeta. unfold default_timeout.
  unfold failure_notice in H.
  destruct (net w (sent w) _) as [| | r]; try discriminate.
  destruct ((400 <=? status_code r) && (status_code r <? 600)).
  - destruct (status_code r =? 429); discriminate.
  - destruct (body r) as [j |] eqn:B; [| discriminate].
    exists r, j. split; [reflexivity | split; [exact B | reflexivity]].
Qed.

Lemma quiet_ret : forall A (a : A), quiet (ret a).
Proof. intros A a w. split; reflexivity. Qed.

Lemma quiet_lift : forall A (r : result A), quiet (lift r).
Proof. intros A r w. split; reflexivity. Qed.

Lemma quiet_show : forall n, quiet (show n).
Proof. intros n w. split; reflexivity. Qed.

Lemma quiet_bind :
  forall A B (m : M A) (k : A -> M B),
    quiet m -> (forall a, quiet (k a)) -> quiet (bind m k).
Proof.
  intros A B m k Hm Hk w. unfold bind.
  destruct (Hm w) as [Hn Hs].
  destruct (m w) as [[a | e] w1]; simpl in *; [| auto].
  destruct (Hk a w1) as [Hn2 Hs2]. rewrite Hn2, Hs2. auto.
Qed.

Ltac quiet_step :=
  first
    [ apply quiet_ret
    | apply quiet_lift
    | apply quiet_show
    | apply quiet_bind; [| intro] ].

Lemma weather_of_payload_quiet : forall data, quiet (weather_of_payload data).
Proof.
  intro data. unfold weather_of_payload.
  destruct data; try apply quiet_lift.
  destruct (filter isdigit (Py.keys m)); repeat quiet_step.
Qed.

(** X1: whatever the network answers, [get_mars_weather] sends exactly
    one request: to the weather endpoint, with the feed type and version
    parameters and a timeout of 10. *)
Theorem get_mars_weather_single_request :
  forall w,
    sent (snd (get_mars_weather w)) = sent w ++ [weather_request]
    /\ net (snd (get_mars_weather w)) = net w.
Proof.
  intro w. unfold get_mars_weather, bind.
  destruct (make_request_sends_once MARS_WEATHER_ENDPOINT
              (Some [("feedtype", "json"); ("ver", "1.0")]%string) None w)
    as ((j & Hok) & Hsent & Hnet).
  destruct (_make_request _ _ _ w) as [[a | e] w1]; simpl in *; [| discriminate].
  destruct (negb (Py.truthy a)); [simpl; auto |].
  destruct (weather_of_payload_quiet a w1) as [Hn Hs].
  rewrite Hn, Hs. auto.
Qed.

(** X2: when the gateway fails, [get_mars_weather] returns [None] and
    the gateway's notice is the only one shown; when the body is a falsy
    JSON value (null, an empty object or list, 0, an empty string,
    false) it returns [None] and shows nothing at all; when the body is
    truthy but not an object it raises [AttributeError]. *)
Theorem get_mars_weather_without_payload :
  forall w,
    (forall n,
       failure_notice (net w (sent w) weather_request) = Some n ->
       get_mars_weather w
       = (Ok None,
          mkWorld (net w) (sent w ++ [weather_request]) (notices w ++ [n])))
    /\ (forall r j,
          net w (sent w) weather_request = Responded r ->
          failure_notice (Responded r) = None ->
          body r = Some j ->
          (Py.truthy j = false ->
           get_mars_weather w
           = (Ok None, mkWorld (net w) (sent w ++ [weather_request]) (notices w)))
          /\ (Py.truthy j = true -> is_object j = false ->
              get_mars_weather w
              = (Raise AttributeError,
                 mkWorld (net w) (sent w ++ [weather_request]) (notices w)))).
Proof.
  intro w. split.
  - intros n H. unfold get_mars_weather, bind.
    unfold weather_request in H. rewrite (make_request_failed _ _ _ _ H).
    reflexivity.
  - intros r j Hr Hnone Hbody.
    rewrite <- Hr in Hnone. unfold weather_request in Hnone, Hr.
    destruct (make_request_answered _ _ _ Hnone) as (r' & j' & Hr' & Hbody' & Hcall).
    rewrite Hr in Hr'. injection Hr' as <-.
    rewrite Hbody in Hbody'. injection Hbody' as <-.
    unfold get_mars_weather, bind. rewrite Hcall.
    split.
    + intro Hf. rewrite Hf. reflexivity.
    + intros Ht Hobj. rewrite Ht. cbn [negb].
      destruct j; try discriminate Hobj; reflexivity.
Qed.

Lemma get_mars_weather_without_payload_witness :
  get_mars_weather (fresh (always TimedOut))
  = (Ok None, mkWorld (always TimedOut) [weather_request] [ErrorTimeout])
  /\ get_mars_weather (fresh (always (answers 200 (JObj []))))
     = (Ok None, mkWorld (always (answers 200 (JObj []))) [weather_request] [])
  /\ get_mars_weather (fresh (always (answers 200 (JArr [JInt 1]))))
     = (Raise AttributeError,
        mkWorld (always (answers 200 (JArr [JInt 1]))) [weather_request] []).
Proof.
  split; [| split].
  - destruct (get_mars_weather_without_payload (fresh (always TimedOut))) as [H _].
    apply (H ErrorTimeout). reflexivity.
  - destruct (get_mars_weather_without_payload
                (fresh (always (answers 200 (JObj []))))) as [_ H].
    apply (H (mkResponse 200 (Some (JObj []))) (JObj [])); reflexivity.
  - destruct (get_mars_weather_without_payload
                (fresh (always (answers 200 (JArr [JInt 1]))))) as [_ H].
    apply (H (mkResponse 200 (Some (JArr [JInt 1]))) (JArr [JInt 1])); reflexivity.
Defined.

End WeatherCallFacts.

(** ** What the weather normaliser keeps and what stops it *)

Section WeatherPayloadFacts.

Lemma lookup_other_key :
  forall k k' v m1 m2,
    k <> k' ->
    Py.lookup k (m1 ++ (k', v) :: m2) = Py.lookup k (m1 ++ m2).
Proof.
  intros k k' v m1 m2 Hne.
  induction m1 as [| [a b] m1 IH]; simpl.
  - apply String.eqb_neq in Hne. now rewrite Hne.
  - destruct (String.eqb k a); [reflexivity | exact IH].
Qed.

Lemma for_each_ext :
  forall A B (f g : A -> result B) l,
    (forall x, In x l -> f x = g x) -> for_each f l = for_each g l.
Proof.
  intros A B f g l H. induction l as [| x l IH]; [reflexivity |].
  cbn [for_each]. rewrite (H x (or_introl eq_refl)), IH; [reflexivity |].
  intros y Hy. apply H. now right.
Qed.

(** X3: a top-level key that is not a digit string plays no part:
    with or without it, at any place of the payload and with any value,
    the normaliser returns the same result, raises the same exception
    and shows the same notice. *)
Theorem metadata_keys_are_ignored :
  forall m1 m2 k v w,
    isdigit k = false ->
    weather_of_payload (JObj (m1 ++ (k, v) :: m2)) w
    = weather_of_payload (JObj (m1 ++ m2)) w.
Proof.
  intros m1 m2 k v w Hk. unfold weather_of_payload.
  assert (Hkeys : filter isdigit (Py.keys (m1 ++ (k, v) :: m2))
                  = filter isdigit (Py.keys (m1 ++ m2))).
  { unfold Py.keys. rewrite !map_app, !filter_app. cbn [map filter fst].
    now rewrite Hk. }
  rewrite Hkeys.
  assert (Hrec : for_each (weather_record (m1 ++ (k, v) :: m2))
                   (filter isdigit (Py.keys (m1 ++ m2)))
                 = for_each (weather_record (m1 ++ m2))
                     (filter isdigit (Py.keys (m1 ++ m2)))).
  { apply for_each_ext. intros s Hs. apply filter_In in Hs.
    destruct Hs as [_ Hdigit].
    unfold weather_record, Py.getitem.
    rewrite lookup_other_key; [reflexivity |].
    intros ->. congruence. }
  destruct (filter isdigit (Py.keys (m1 ++ m2))); [reflexivity |].
  unfold bind, lift. now rewrite Hrec.
Qed.

Lemma metadata_keys_are_ignored_witness :
  weather_of_payload
    (JObj [("675", sample_day); ("validity_checks", JNull)]%string)
    (fresh (always Failed))
  = weather_of_payload (JObj [("675", sample_day)]%string) (fresh (always Failed)).
Proof.
  apply (metadata_keys_are_ignored [("675", sample_day)]%string []
           "validity_checks" JNull).
  reflexivity.
Defined.

Lemma for_each_results :
  forall A B (f : A -> result B) l ys,
    for_each f l = Ok ys -> Forall2 (fun x y => f x = Ok y) l ys.
Proof.
  intros A B f l. induction l as [| x l IH]; intros ys H.
  - injection H as <-. constructor.
  - cbn [for_each] in H. destruct (f x) as [y | e] eqn:E; [| discriminate].
    cbn [rbind] in H. destruct (for_each f l) as [ys' | e]; [| discriminate].
    injection H as <-. constructor; [exact E | now apply IH].
Qed.

Lemma weather_record_sol :
  forall m k r, weather_record m k = Ok r ->
                Py.int_of_str k = Ok (WeatherRecord.sol r).
Proof.
  intros m k r H. unfold weather_record in H.
  repeat match type of H with
         | rbind ?x _ = _ => destruct x; cbn [rbind] in H; [| discriminate]
         end.
  now injection H as <-.
Qed.

(** X4: a frame that the normaliser returns is never empty: it has one
    row per digit key, each row's sol is the integer its key converts
    to, the rows are in descending order of sol, and nothing was shown
    or sent. *)
Theorem returned_frame_shape :
  forall m w df w',
    weather_of_payload (JObj m) w = (Ok (Some df), w') ->
    w' = w
    /\ df <> []
    /\ List.length df = List.length (filter isdigit (Py.keys m))
    /\ descending (map WeatherRecord.sol df)
    /\ exists sols,
         Forall2 (fun k n => Py.int_of_str k = Ok n) (filter isdigit (Py.keys m)) sols
         /\ Permutation (map WeatherRecord.sol df) sols.
Proof.
  intros m w df w' H. unfold weather_of_payload in H.
  destruct (filter isdigit (Py.keys m)) as [| k ks] eqn:K; [discriminate |].
  unfold bind, lift in H.
  destruct (for_each (weather_record m) (k :: ks)) as [records | e] eqn:E;
    [| discriminate].
  injection H as <- <-.
  pose proof (for_each_results _ _ _ _ _ E) as Hall.
  pose proof (sort_values_desc_perm records) as Hperm.
  assert (Hlen : List.length records = List.length (k :: ks))
    by (symmetry; eapply Forall2_length; exact Hall).
  split; [reflexivity |].
  split.
  { intro Hnil. apply (f_equal (@List.length _)) in Hnil.
    rewrite (Permutation_length Hperm), Hlen in Hnil. discriminate. }
  split; [now rewrite (Permutation_length Hperm) |].
  split; [apply sort_values_desc_sorted |].
  exists (map WeatherRecord.sol records). split.
  - clear - Hall. induction Hall; cbn [map]; constructor; [| assumption].
    eapply weather_record_sol; eassumption.
  - now apply Permutation_map.
Qed.

Lemma returned_frame_shape_witness :
  let m := [("674", JObj []); ("675", sample_day)]%string in
  let df := [record_of_key m "675"; record_of_key m "674"] in
  df <> [] /\ descending (map WeatherRecord.sol df).
Proof.
  cbv zeta.
  destruct (returned_frame_shape
              [("674", JObj []); ("675", sample_day)]%string
              (fresh (always Failed))
              [record_of_key [("674", JObj []); ("675", sample_day)]%string "675";
               record_of_key [("674", JObj []); ("675", sample_day)]%string "674"]
              (fresh (always Failed)) eq_refl)
    as (_ & Hne & _ & Hsorted & _).
  split; assumption.
Defined.

Lemma for_each_raises :
  forall A B (f : A -> result B) l x e,
    In x l -> f x = Raise e -> exists e', for_each f l = Raise e'.
Proof.
  intros A B f l x e Hin Hx. induction l as [| y l IH]; [contradiction |].
  cbn [for_each]. destruct Hin as [-> | Hin].
  - rewrite Hx. now exists e.
  - destruct (f y); cbn [rbind]; [| eexists; reflexivity].
    destruct (IH Hin) as [e' He']. rewrite He'. now exists e'.
Qed.

(** X11: the batch is all or nothing.  If the entry of some digit key is
    not an object, or its [AT] or [PRE] member is present and not an
    object (null included), the normaliser raises and returns no record
    at all. *)
Theorem unreadable_day_aborts_batch :
  forall m w k v,
    In k (filter isdigit (Py.keys m)) ->
    Py.lookup k m = Some v ->
    (is_object v = false
     \/ exists d member t,
          v = JObj d /\ (member = "AT"%string \/ member = "PRE"%string)
          /\ Py.lookup member d = Some t /\ is_object t = false) ->
    exists e, weather_of_payload (JObj m) w = (Raise e, w).
Proof.
  intros m w k v Hin Hk Hbad.
  assert (Hraise : exists e, weather_record m k = Raise e).
  { unfold weather_record, Py.getitem. rewrite Hk. cbn [rbind].
    destruct Hbad as [Hv | (d & member & t & -> & Hmember & Ht & Hobj)].
    - destruct v; try discriminate Hv; eexists; reflexivity.
    - destruct Hmember as [-> | ->].
      + unfold Py.get at 1. rewrite Ht. cbn [rbind].
        destruct t; try discriminate Hobj; eexists; reflexivity.
      + rewrite !get_field. cbn [rbind].
        assert (Hpre : field d "PRE" (JObj []) = t)
          by (unfold field; now rewrite Ht).
        rewrite Hpre.
        repeat match goal with
               | |- exists e, rbind (Py.get (field d "AT" _) ?k ?x) _ = _ =>
                   destruct (Py.get (field d "AT" (JObj [])) k x); cbn [rbind];
                   [| eexists; reflexivity]
               end.
        destruct t; try discriminate Hobj; eexists; reflexivity. }
  destruct Hraise as [e He].
  destruct (for_each_raises _ _ _ _ _ _ Hin He) as [e' He'].
  exists e'. unfold weather_of_payload.
  destruct (filter isdigit (Py.keys m)); [contradiction |].
  unfold bind, lift. now rewrite He'.
Qed.

Lemma unreadable_day_aborts_batch_witness :
  exists e,
    weather_of_payload
      (JObj [("675", sample_day); ("676", JObj [("AT", JNull)])]%string)
      (fresh (always Failed))
    = (Raise e, fresh (always Failed)).
Proof.
  apply (unreadable_day_aborts_batch _ _ "676"%string (JObj [("AT", JNull)]%string)).
  - right. left. reflexivity.
  - reflexivity.
  - right. exists [("AT", JNull)]%string, "AT"%string, JNull.
    repeat split. now left.
Defined.

End WeatherPayloadFacts.

(** ** The photo call as a whole *)

Section PhotoCallFacts.

Lemma extend_nothing : forall w, extend w [] [] = w.
Proof. intros [n s t]. unfold extend. simpl. now rewrite !app_nil_r. Qed.

Lemma extend_extend :
  forall w l1 n1 l2 n2,
    extend (extend w l1 n1) l2 n2 = extend w (l1 ++ l2) (n1 ++ n2).
Proof.
  intros [n s t] l1 n1 l2 n2. unfold extend. simpl. now rewrite !app_assoc.
Qed.

Lemma show_extend :
  forall A n (a : A) w, (show n ;; ret a)%M w = (Ok a, extend w [] [n]).
Proof.
  intros A n a [nt s t]. unfold bind, show, ret, extend. simpl.
  now rewrite app_nil_r.
Qed.

Lemma photo_record_rover :
  forall latest_sol img p,
    photo_record latest_sol img = Ok p -> PhotoRecord.rover p = "Curiosity"%string.
Proof.
  intros latest_sol img p H. unfold photo_record in H.
  repeat match type of H with
         | rbind ?x _ = _ => destruct x; cbn [rbind] in H; [| discriminate]
         end.
  now injection H as <-.
Qed.

Lemma slice_to_length :
  forall A (l : list A) n,
    0 <= n -> Z.of_nat (List.length (slice_to n l)) <= n.
Proof.
  intros A l n Hn. unfold slice_to.
  destruct (n <? 0) eqn:E; [apply Z.ltb_lt in E; lia |].
  rewrite length_firstn. lia.
Qed.

Ltac outcome_none n :=
  exists (Ok None), [n]; rewrite show_extend;
  split; [reflexivity
         | split; [simpl; discriminate
                  | let H := fresh in intro H; first [reflexivity | discriminate H]]].

Ltac outcome_raise e :=
  exists (Raise e), []; rewrite extend_nothing;
  split; [reflexivity
         | split; [reflexivity | let H := fresh in intro H; discriminate H]].

Lemma photos_of_payload_outcome :
  forall latest_sol sol_data num_photos w,
    exists r notes,
      photos_of_payload latest_sol sol_data num_photos w = (r, extend w [] notes)
      /\ photo_outcome num_photos r notes
      /\ (Py.truthy sol_data = false -> r = Ok None).
Proof.
  intros latest_sol sol_data num_photos w. unfold photos_of_payload.
  destruct (Py.truthy sol_data) eqn:T; cbn [negb];
    [| outcome_none (ErrorNoSolImages latest_sol)].
  unfold bind at 1. unfold lift at 1.
  destruct (Py.str_in "images" sol_data) as [has | e]; [| outcome_raise e].
  destruct has; cbn [negb]; [| outcome_none (ErrorNoSolImages latest_sol)].
  unfold bind at 1. unfold lift at 1.
  destruct (subscript sol_data "images") as [all_images | e]; [| outcome_raise e].
  unfold bind at 1. unfold lift at 1.
  destruct (slice_images all_images num_photos) as [cut | e] eqn:S;
    [| outcome_raise e].
  destruct cut as [[| img images] | [| c rest]].
  - outcome_none (WarningNoImages latest_sol).
  - unfold bind, lift, ret.
    destruct (for_each (photo_record latest_sol) (img :: images)) as [photos | e] eqn:E;
      [| outcome_raise e].
    exists (Ok (Some photos)), []. rewrite extend_nothing.
    pose proof (for_each_results _ _ _ _ _ E) as Hall.
    split; [reflexivity |]. split; [| intro H; discriminate H].
    split; [reflexivity |]. split; [| split].
    + intro Hnil. subst photos. inversion Hall.
    + clear - Hall. induction Hall; constructor; [| assumption].
      eapply photo_record_rover; eassumption.
    + intro Hn. rewrite <- (Forall2_length Hall).
      unfold slice_images in S. destruct all_images; try discriminate S.
      injection S as S. rewrite <- S. now apply slice_to_length.
  - outcome_none (WarningNoImages latest_sol).
  - unfold lift. outcome_raise AttributeError.
Qed.

Lemma sent_only :
  forall w later,
    mkWorld (net w) (sent w ++ later) (notices w) = extend w later [].
Proof. intros w later. unfold extend. now rewrite app_nil_r. Qed.

Lemma photo_outcome_after_notice :
  forall num_photos n notes,
    photo_outcome num_photos (Ok None) (n :: notes).
Proof. intros. simpl. discriminate. Qed.

(** The second stage: the per-day request and what follows it. *)
Lemma day_stage_outcome :
  forall latest_sol num_photos w,
    exists r notes,
      (sol_data <- _make_request (MSL_SOL_IMAGES_URL latest_sol) None None ;;
       photos_of_payload latest_sol sol_data num_photos)%M w
      = (r, extend w [sol_request latest_sol] notes)
      /\ photo_outcome num_photos r notes.
Proof.
  intros latest_sol num_photos w. unfold bind.
  destruct (failure_notice (net w (sent w) (sol_request latest_sol))) as [nt |] eqn:F.
  - unfold sol_request in F. rewrite (make_request_failed _ _ _ _ F).
    change (mkWorld (net w) (sent w ++ [mkRequest (MSL_SOL_IMAGES_URL latest_sol) None 10])
              (notices w ++ [nt]))
      with (extend w [sol_request latest_sol] [nt]).
    destruct (photos_of_payload_outcome latest_sol JNull num_photos
                (extend w [sol_request latest_sol] [nt]))
      as (r & notes & E & _ & Hf).
    rewrite E, extend_extend, (Hf eq_refl).
    exists (Ok None), ([nt] ++ notes). split; [reflexivity |].
    apply photo_outcome_after_notice.
  - unfold sol_request in F.
    destruct (make_request_answered _ _ _ F) as (r0 & j & _ & _ & Hcall).
    rewrite Hcall, sent_only.
    destruct (photos_of_payload_outcome latest_sol j num_photos
                (extend w [mkRequest (MSL_SOL_IMAGES_URL latest_sol) None 10] []))
      as (r & notes & E & Ho & _).
    rewrite E, extend_extend. exists r, notes. split; [reflexivity | exact Ho].
Qed.

(** The first stage on the manifest that the gateway returned. *)
Lemma manifest_stage_outcome :
  forall manifest_data num_photos w,
    exists later r notes,
      photos_of_manifest manifest_data num_photos w = (r, extend w later notes)
      /\ photo_outcome num_photos r notes
      /\ (later = [] \/ exists sol, sol <> JNull /\ later = [sol_request sol])
      /\ (Py.truthy manifest_data = false ->
          r = Ok None /\ later = [] /\ notes = [ErrorNoManifest]).
Proof.
  intros manifest_data num_photos w. unfold photos_of_manifest.
  destruct (Py.truthy manifest_data) eqn:T; cbn [negb].
  2:{ exists [], (Ok None), [ErrorNoManifest]. rewrite show_extend.
      split; [reflexivity |]. split; [simpl; discriminate |].
      split; [now left | auto]. }
  assert (Hstay : forall p r notes,
             p = (r, extend w [] notes) ->
             photo_outcome num_photos r notes ->
             exists later r' notes',
               p = (r', extend w later notes')
               /\ photo_outcome num_photos r' notes'
               /\ (later = [] \/ exists sol, sol <> JNull /\ later = [sol_request sol])
               /\ (true = false -> r' = Ok None /\ later = [] /\ notes' = [ErrorNoManifest])).
  { intros p r notes Hp Ho. exists [], r, notes.
    split; [exact Hp |]. split; [exact Ho |]. split; [now left | discriminate]. }
  unfold bind at 1. unfold lift at 1.
  destruct (Py.get manifest_data "sols" (JArr [])) as [sols | e].
  2:{ apply (Hstay _ (Raise e) []); [now rewrite extend_nothing | reflexivity]. }
  destruct (Py.truthy sols); cbn [negb].
  2:{ apply (Hstay _ (Ok None) [WarningNoImageData]);
        [apply show_extend | simpl; discriminate]. }
  unfold bind at 1. unfold lift at 1.
  destruct (find_latest_sol sols) as [latest_sol | e].
  2:{ apply (Hstay _ (Raise e) []); [now rewrite extend_nothing | reflexivity]. }
  assert (Hgo : latest_sol <> JNull ->
            exists later r' notes',
              (sol_data <- _make_request (MSL_SOL_IMAGES_URL latest_sol) None None ;;
               photos_of_payload latest_sol sol_data num_photos)%M w
              = (r', extend w later notes')
              /\ photo_outcome num_photos r' notes'
              /\ (later = [] \/ exists sol, sol <> JNull /\ later = [sol_request sol])
              /\ (true = false -> r' = Ok None /\ later = [] /\ notes' = [ErrorNoManifest])).
  { intro Hsol.
    destruct (day_stage_outcome latest_sol num_photos w) as (r & notes & E & Ho).
    exists [sol_request latest_sol], r, notes.
    split; [exact E |]. split; [exact Ho |].
    split; [right; now exists latest_sol | discriminate]. }
  destruct latest_sol; try (apply Hgo; discriminate).
  apply (Hstay _ (Ok None) [WarningNoRecentPhotos]);
    [apply show_extend | simpl; discriminate].
Qed.

Lemma get_rover_photos_outcome :
  forall rover_name num_photos w,
    exists later r notes,
      get_rover_photos rover_name num_photos w = (r, extend w later notes)
      /\ photo_outcome num_photos r notes
      /\ ((later = [] /\ lower rover_name <> "curiosity"%string)
          \/ (lower rover_name = "curiosity"%string
              /\ (later = [manifest_request]
                  \/ exists sol,
                       sol <> JNull /\ later = [manifest_request; sol_request sol]))).
Proof.
  intros rover_name num_photos w. unfold get_rover_photos.
  destruct (String.eqb (lower rover_name) "curiosity") eqn:G; cbn [negb].
  2:{ exists [], (Ok None), [WarningUnsupportedRover (title (lower rover_name))].
      rewrite show_extend. split; [reflexivity |]. split; [simpl; discriminate |].
      left. split; [reflexivity | now apply String.eqb_neq]. }
  apply String.eqb_eq in G. unfold bind.
  destruct (failure_notice (net w (sent w) manifest_request)) as [nt |] eqn:F.
  - unfold manifest_request in F. rewrite (make_request_failed _ _ _ _ F).
    change (mkWorld (net w) (sent w ++ [mkRequest MSL_MANIFEST_URL None 10])
              (notices w ++ [nt]))
      with (extend w [manifest_request] [nt]).
    destruct (manifest_stage_outcome JNull num_photos
                (extend w [manifest_request] [nt]))
      as (later & r & notes & E & _ & _ & Hf).
    destruct (Hf eq_refl) as (-> & -> & ->).
    rewrite E, extend_extend.
    exists [manifest_request], (Ok None), [nt; ErrorNoManifest].
    split; [reflexivity |]. split; [simpl; discriminate |].
    right. split; [exact G | now left].
  - unfold manifest_request in F.
    destruct (make_request_answered _ _ _ F) as (r0 & j & _ & _ & Hcall).
    rewrite Hcall, sent_only.
    destruct (manifest_stage_outcome j num_photos
                (extend w [mkRequest MSL_MANIFEST_URL None 10] []))
      as (later & r & notes & E & Ho & Hlater & _).
    rewrite E, extend_extend.
    exists ([manifest_request] ++ later), r, notes.
    split; [reflexivity |]. split; [exact Ho |].
    right. split; [exact G |].
    destruct Hlater as [-> | (sol & Hsol & ->)];
      [now left | right; now exists sol].
Qed.

(** X12: [get_rover_photos] sends at most two requests and never
    changes the network: none for a name that the gate rejects;
    otherwise the manifest request, followed by at most one per-day
    request, for a day that is not [None]. *)
Theorem get_rover_photos_request_budget :
  forall rover_name num_photos w,
    let out := get_rover_photos rover_name num_photos w in
    net (snd out) = net w
    /\ exists later,
         sent (snd out) = sent w ++ later
         /\ ((later = [] /\ lower rover_name <> "curiosity"%string)
             \/ (lower rover_name = "curiosity"%string
                 /\ (later = [manifest_request]
                     \/ exists sol,
                          sol <> JNull
                          /\ later = [manifest_request; sol_request sol]))).
Proof.
  intros rover_name num_photos w out. unfold out.
  destruct (get_rover_photos_outcome rover_name num_photos w)
    as (later & r & notes & E & _ & Hlater).
  rewrite E. split; [reflexivity |]. exists later. split; [reflexivity | exact Hlater].
Qed.

(** X13: [get_rover_photos] never returns [None] silently and never
    returns an empty list.  With a result of [None] at least one notice
    was shown; with a list nothing was shown, the list is not empty, it
    has at most [num_photos] records when [num_photos] is not negative,
    and every record names the rover Curiosity; when the call raises,
    nothing was shown. *)
Theorem get_rover_photos_result_and_notices :
  forall rover_name num_photos w,
    let out := get_rover_photos rover_name num_photos w in
    exists notes,
      notices (snd out) = notices w ++ notes
      /\ match fst out with
         | Ok None => notes <> []
         | Raise _ => notes = []
         | Ok (Some photos) =>
             notes = []
             /\ photos <> []
             /\ Forall (fun p => PhotoRecord.rover p = "Curiosity"%string) photos
             /\ (0 <= num_photos -> Z.of_nat (List.length photos) <= num_photos)
         end.
Proof.
  intros rover_name num_photos w out. unfold out.
  destruct (get_rover_photos_outcome rover_name num_photos w)
    as (later & r & notes & E & Ho & _).
  rewrite E. exists notes. split; [reflexivity | exact Ho].
Qed.

Lemma get_rover_photos_result_and_notices_witness :
  exists notes,
    notices (snd (get_rover_photos "curiosity" 2 (fresh sample_network)))
    = [] ++ notes
    /\ notes = []
    /\ (0 <= 2 ->
        Z.of_nat (List.length
                    [photo_of (mkImage (JStr "NLB_1") (JStr "https://mars.nasa.gov/NLB_1")
                                 "2024-01-02T03:04:05Z" "MAST_LEFT_B" 11);
                     photo_of (mkImage (JStr "NLB_2") (JStr "https://mars.nasa.gov/NLB_2")
                                 "2024-01-02" "XYZ_FOO" 11)]) <= 2).
Proof.
  destruct (get_rover_photos_result_and_notices "curiosity" 2 (fresh sample_network))
    as (notes & Hn & Ho).
  exists notes. split; [exact Hn |].
  change (fst (get_rover_photos "curiosity" 2 (fresh sample_network)))
    with (Ok (Some [photo_of (mkImage (JStr "NLB_1") (JStr "https://mars.nasa.gov/NLB_1")
                                 "2024-01-02T03:04:05Z" "MAST_LEFT_B" 11);
                    photo_of (mkImage (JStr "NLB_2") (JStr "https://mars.nasa.gov/NLB_2")
                                 "2024-01-02" "XYZ_FOO" 11)])) in Ho.
  destruct Ho as (Hnotes & _ & _ & Hlen). split; assumption.
Defined.

(** X14: when the manifest request fails in any of the gateway's ways,
    a call that passed the gate returns [None], shows the gateway's
    notice followed by the manifest error, and sends no second
    request. *)
Theorem manifest_failure_is_reported_twice :
  forall rover_name num_photos w n,
    lower rover_name = "curiosity"%string ->
    failure_notice (net w (sent w) manifest_request) = Some n ->
    get_rover_photos rover_name num_photos w
    = (Ok None, extend w [manifest_request] [n; ErrorNoManifest]).
Proof.
  intros rover_name num_photos w n G F. unfold get_rover_photos.
  rewrite G. cbn [String.eqb Ascii.eqb Bool.eqb negb]. unfold bind at 1.
  unfold manifest_request in F. rewrite (make_request_failed _ _ _ _ F).
  unfold photos_of_manifest. cbn [Py.truthy negb].
  rewrite show_extend. unfold extend. simpl.
  rewrite app_nil_r, <- app_assoc. reflexivity.
Qed.

Lemma manifest_failure_is_reported_twice_witness :
  get_rover_photos "Curiosity" 5 (fresh (always (Responded (mkResponse 429 None))))
  = (Ok None,
     extend (fresh (always (Responded (mkResponse 429 None))))
       [manifest_request] [ErrorRateLimit; ErrorNoManifest]).
Proof.
  apply manifest_failure_is_reported_twice; reflexivity.
Defined.

Lemma photos_of_manifest_selected :
  forall m sols days d num_photos w,
    Py.lookup "sols" m = Some (JArr sols) ->
    Forall2 encodes_day sols days ->
    latest_populated days = Some d ->
    photos_of_manifest (JObj m) num_photos w
    = (sol_data <- _make_request (MSL_SOL_IMAGES_URL (JInt (day_sol d))) None None ;;
       photos_of_payload (JInt (day_sol d)) sol_data num_photos)%M w.
Proof.
  intros m sols days d num_photos w Hm H Hd.
  assert (Hfind : find_latest_sol (JArr sols) = Ok (JInt (day_sol d))).
  { unfold find_latest_sol, reversed, rbind.
    rewrite (scan_sols_find _ _ (Forall2_reverse _ _ _ _ _ H)).
    unfold latest_populated in Hd. now rewrite Hd. }
  unfold photos_of_manifest.
  assert (Ht : Py.truthy (JObj m) = true)
    by (destruct m; [discriminate | reflexivity]).
  rewrite Ht. cbn [negb]. unfold bind at 1. unfold lift at 1.
  unfold Py.get. rewrite Hm.
  destruct sols as [| s sols'].
  - inversion H; subst. discriminate Hd.
  - change (Py.truthy (JArr (s :: sols'))) with true. cbn [negb].
    unfold bind at 1. unfold lift at 1. rewrite Hfind. reflexivity.
Qed.

Lemma photos_of_payload_prefix :
  forall latest_sol p imgs entries num_photos w,
    Py.lookup "images" p = Some (JArr imgs) ->
    Forall2 (encodes_image latest_sol) imgs entries ->
    imgs <> [] ->
    1 <= num_photos ->
    photos_of_payload latest_sol (JObj p) num_photos w
    = (Ok (Some (map photo_of (firstn (Z.to_nat num_photos) entries))), w).
Proof.
  intros latest_sol p imgs entries num_photos w Hp H Hne Hn.
  unfold photos_of_payload.
  assert (Ht : Py.truthy (JObj p) = true)
    by (destruct p; [discriminate | reflexivity]).
  rewrite Ht. cbn [negb]. unfold Py.str_in, Py.mem. rewrite Hp.
  unfold bind at 1. unfold lift at 1. cbn [negb].
  unfold subscript, Py.getitem. rewrite Hp.
  unfold bind at 1. unfold lift at 1.
  unfold slice_images, slice_to.
  assert (Hneg : (num_photos <? 0) = false) by (apply Z.ltb_ge; lia).
  rewrite Hneg. unfold bind at 1. unfold lift at 1.
  pose proof (for_each_photo_records _ _ _
                (Forall2_firstn _ _ _ (Z.to_nat num_photos) _ _ H)) as Hrec.
  destruct (firstn (Z.to_nat num_photos) imgs) as [| img rest] eqn:Ecut.
  - exfalso. destruct imgs as [| i0 imgs0]; [now apply Hne |].
    destruct (Z.to_nat num_photos) eqn:En; [lia | discriminate].
  - unfold bind, lift. rewrite Hrec. reflexivity.
Qed.

(** X15: the two stages compose.  For a name that passes the gate, on a
    network that answers the manifest request with a manifest of day
    summaries and the request for its latest populated day with a
    non-empty list of image entries, the call returns the records of the
    first [num_photos] entries, sends exactly these two requests and
    shows nothing; if instead the per-day request fails, the call
    returns [None] and shows the gateway's notice followed by the error
    naming that day. *)
Theorem photos_through_gateway :
  forall rover_name num_photos w r1 m sols days d,
    lower rover_name = "curiosity"%string ->
    net w (sent w) manifest_request = Responded r1 ->
    failure_notice (Responded r1) = None ->
    body r1 = Some (JObj m) ->
    Py.lookup "sols" m = Some (JArr sols) ->
    Forall2 encodes_day sols days ->
    latest_populated days = Some d ->
    let day := JInt (day_sol d) in
    let answer := net w (sent w ++ [manifest_request]) (sol_request day) in
    (forall r2 p imgs entries,
       answer = Responded r2 ->
       failure_notice (Responded r2) = None ->
       body r2 = Some (JObj p) ->
       Py.lookup "images" p = Some (JArr imgs) ->
       Forall2 (encodes_image day) imgs entries ->
       imgs <> [] ->
       1 <= num_photos ->
       get_rover_photos rover_name num_photos w
       = (Ok (Some (map photo_of (firstn (Z.to_nat num_photos) entries))),
          extend w [manifest_request; sol_request day] []))
    /\ (forall n,
          failure_notice answer = Some n ->
          get_rover_photos rover_name num_photos w
          = (Ok None,
             extend w [manifest_request; sol_request day] [n; ErrorNoSolImages day])).
Proof.
  intros rover_name num_photos w r1 m sols days d G Hr1 Hf1 Hb1 Hm Hdays Hd day answer.
  assert (Hfirst :
            get_rover_photos rover_name num_photos w
            = (sol_data <- _make_request (MSL_SOL_IMAGES_URL day) None None ;;
               photos_of_payload day sol_data num_photos)%M
                (extend w [manifest_request] [])).
  { unfold get_rover_photos. rewrite G.
    cbn [String.eqb Ascii.eqb Bool.eqb negb]. unfold bind at 1.
    rewrite <- Hr1 in Hf1. unfold manifest_request in Hf1, Hr1.
    destruct (make_request_answered _ _ _ Hf1) as (r' & j & Hr' & Hb' & Hcall).
    rewrite Hr1 in Hr'. injection Hr' as <-.
    rewrite Hb1 in Hb'. injection Hb' as <-.
    rewrite Hcall, sent_only.
    apply (photos_of_manifest_selected m sols days d); assumption. }
  assert (Hnet : net (extend w [manifest_request] [])
                   (sent (extend w [manifest_request] [])) (sol_request day)
                 = answer) by reflexivity.
  split.
  - intros r2 p imgs entries Hr2 Hf2 Hb2 Hp Himgs Hne Hn.
    rewrite Hfirst. unfold bind at 1.
    rewrite <- Hr2, <- Hnet in Hf2. unfold sol_request in Hf2.
    destruct (make_request_answered _ _ _ Hf2) as (r' & j & Hr' & Hb' & Hcall).
    change (mkRequest (MSL_SOL_IMAGES_URL day) None 10) with (sol_request day) in Hr'.
    rewrite Hnet, Hr2 in Hr'. injection Hr' as <-.
    rewrite Hb2 in Hb'. injection Hb' as <-.
    rewrite Hcall, sent_only, extend_extend.
    apply (photos_of_payload_prefix day p imgs entries); assumption.
  - intros n Hfail. rewrite Hfirst. unfold bind at 1.
    rewrite <- Hnet in Hfail. unfold sol_request in Hfail.
    rewrite (make_request_failed _ _ _ _ Hfail).
    unfold photos_of_payload. cbn [Py.truthy negb].
    rewrite show_extend. unfold extend. simpl.
    rewrite !app_nil_r, <- !app_assoc. reflexivity.
Qed.

Lemma photos_through_gateway_witness :
  get_rover_photos "Curiosity" 2 (fresh sample_network)
  = (Ok (Some
           (map photo_of
              [mkImage (JStr "NLB_1") (JStr "https://mars.nasa.gov/NLB_1")
                 "2024-01-02T03:04:05Z" "MAST_LEFT_B" 11;
               mkImage (JStr "NLB_2") (JStr "https://mars.nasa.gov/NLB_2")
                 "2024-01-02" "XYZ_FOO" 11])),
     extend (fresh sample_network) [manifest_request; sol_request (JInt 11)] []).
Proof.
  assert (Hdays : Forall2 encodes_day
                    [day_json 10 0; day_json 11 3; day_json 12 0]
                    [mkDay 10 0; mkDay 11 3; mkDay 12 0])
    by (repeat constructor).
  assert (Himgs : Forall2 (encodes_image (JInt 11))
                    [sample_first_image; sample_second_image; sample_third_image]
                    [mkImage (JStr "NLB_1") (JStr "https://mars.nasa.gov/NLB_1")
                       "2024-01-02T03:04:05Z" "MAST_LEFT_B" 11;
                     mkImage (JStr "NLB_2") (JStr "https://mars.nasa.gov/NLB_2")
                       "2024-01-02" "XYZ_FOO" 11;
                     mkImage (JStr "NLB_3") (JStr "https://mars.nasa.gov/NLB_3")
                       "2024-01-02T09:00:00Z" "MAHLI" 11])
    by (repeat constructor).
  destruct (photos_through_gateway "Curiosity" 2 (fresh sample_network)
              (mkResponse 200 (Some (JObj sample_manifest))) sample_manifest
              _ _ (mkDay 11 3)
              eq_refl eq_refl eq_refl eq_refl eq_refl Hdays eq_refl)
    as [H _].
  apply (H (mkResponse 200 (Some sample_payload))
           [("images", JArr [sample_first_image; sample_second_image;
                             sample_third_image])]%string
           _ _ eq_refl eq_refl eq_refl eq_refl Himgs);
    [discriminate | lia].
Defined.

End PhotoCallFacts.

(** ** Camera names once more *)

Section CameraTableFacts.

Lemma title_char_no_underscore :
  forall c,
    Ascii.eqb c "_" = false ->
    has_underscore (title_char c) = false
    /\ N.eqb 95 (cp (lower_char c)) = false.
Proof.
  intros c H.
  destruct c as [[] [] [] [] [] [] [] []];
    vm_compute in H; try discriminate H; split; reflexivity.
Qed.

Lemma title_from_no_underscore :
  forall l previous,
    Forall (fun c => Ascii.eqb c "_" = false) l ->
    has_underscore (title_from previous l) = false.
Proof.
  induction l as [| c l IH]; intros previous H; [reflexivity |].
  inversion H as [| ? ? Hc Hl]; subst.
  destruct (title_char_no_underscore c Hc) as [Ht Hlow].
  cbn [title_from]. unfold has_underscore in *. rewrite existsb_app.
  rewrite (IH _ Hl), orb_false_r.
  destruct previous; [cbn [existsb]; now rewrite Hlow | exact Ht].
Qed.

Lemma replace_underscores :
  forall s, Forall (fun c => Ascii.eqb c "_" = false)
              (chars (replace_char "_" " " s)).
Proof.
  induction s as [| c s IH]; simpl; constructor; [| exact IH].
  destruct (Ascii.eqb c "_") eqn:E; [reflexivity | exact E].
Qed.

(** X16: a camera name never contains an underscore, whatever the
    instrument code. *)
Theorem camera_name_has_no_underscore :
  forall instrument,
    exists name,
      _format_camera_name instrument = Ok name /\ has_underscore name = false.
Proof.
  intro instrument. exists (camera_name_policy instrument).
  split; [apply format_camera_name_refines |].
  unfold camera_name_policy.
  assert (Htable : forall entry, In entry camera_map ->
                                 has_underscore (ustr (snd entry)) = false).
  { apply Forall_forall. repeat constructor. }
  destruct (find _ camera_map) as [entry |] eqn:E1.
  - apply Htable. eapply find_some; exact E1.
  - destruct (find (fun entry => startswith instrument (fst entry)) camera_map)
      as [entry |] eqn:E2.
    + apply Htable. eapply find_some; exact E2.
    + apply title_from_no_underscore, replace_underscores.
Qed.

(** X17: every code of the table gets its own label, and every code
    that extends a code of the table gets a label of the table, never
    the fallback. *)
Theorem table_codes_and_their_extensions :
  forall key label,
    In (key, label) camera_map ->
    _format_camera_name key = Ok (ustr label)
    /\ forall rest,
         exists label',
           In label' (map snd camera_map)
           /\ _format_camera_name (key ++ rest) = Ok (ustr label').
Proof.
  intros key label Hin. split.
  - revert key label Hin.
    assert (H : Forall (fun entry =>
                          _format_camera_name (fst entry) = Ok (ustr (snd entry)))
                  camera_map)
      by (repeat constructor).
    intros key label Hin. rewrite Forall_forall in H. exact (H _ Hin).
  - intro rest. rewrite format_camera_name_refines. unfold camera_name_policy.
    destruct (find _ camera_map) as [entry |] eqn:E1.
    + exists (snd entry). split; [| reflexivity].
      apply in_map. eapply find_some; exact E1.
    + destruct (find (fun entry => startswith (key ++ rest) (fst entry)) camera_map)
        as [entry |] eqn:E2.
      * exists (snd entry). split; [| reflexivity].
        apply in_map. eapply find_some; exact E2.
      * exfalso. pose proof (find_none _ _ E2 _ Hin) as Hno. cbn [fst] in Hno.
        assert (Hyes : startswith (key ++ rest) key = true)
          by (apply startswith_iff; now exists rest).
        congruence.
Qed.

Lemma table_codes_and_their_extensions_witness :
  _format_camera_name "CHEMCAM" = Ok (ustr "Chemistry and Camera Complex")
  /\ exists label',
       In label' (map snd camera_map)
       /\ _format_camera_name "CHEMCAM_RMI" = Ok (ustr label').
Proof.
  destruct (table_codes_and_their_extensions "CHEMCAM" "Chemistry and Camera Complex")
    as [Hown Hext].
  - simpl. repeat (first [left; reflexivity | right]).
  - split; [exact Hown | exact (Hext "_RMI"%string)].
Defined.

End CameraTableFacts.

(** ** Which manifest entries are looked at *)

Section ScanFacts.

Lemma scan_sols_stops :
  forall items days d rest,
    Forall2 encodes_day items days ->
    find populated days = Some d ->
    scan_sols (items ++ rest) = Ok (JInt (day_sol d)).
Proof.
  intros items days d rest H. revert d.
  induction H as [| item day items days Hd _ IH]; intros d Hfind;
    [discriminate |].
  cbn [app scan_sols]. cbn [find] in Hfind.
  destruct Hd as [m day Hsol Hcount | m day Hsol Hcount Hzero];
    unfold Py.get, rbind; rewrite Hcount; cbn [Py.gt0];
    unfold populated in Hfind.
  - destruct (0 <? day_num_images day).
    + injection Hfind as <-. unfold subscript, Py.getitem. now rewrite Hsol.
    + now apply IH.
  - rewrite Hzero in Hfind. cbn in Hfind. cbn. now apply IH.
Qed.

(** X18: the scan stops at the latest populated day.  Entries older than
    the day summaries that hold it are never looked at, whatever JSON
    they are; but a newest entry that is not an object makes the call
    raise [AttributeError], whatever the older entries are. *)
Theorem scan_looks_at_newest_entries_only :
  (forall older sols days d,
     Forall2 encodes_day sols days ->
     latest_populated days = Some d ->
     find_latest_sol (JArr (older ++ sols)) = Ok (JInt (day_sol d)))
  /\ (forall older newest,
        is_object newest = false ->
        find_latest_sol (JArr (older ++ [newest])) = Raise AttributeError).
Proof.
  split.
  - intros older sols days d H Hd.
    unfold find_latest_sol, reversed, rbind. rewrite rev_app_distr.
    apply (scan_sols_stops _ (rev days)); [now apply Forall2_reverse | exact Hd].
  - intros older newest H.
    unfold find_latest_sol, reversed, rbind. rewrite rev_app_distr.
    cbn [rev app scan_sols].
    destruct newest; try discriminate H; reflexivity.
Qed.

Lemma scan_looks_at_newest_entries_only_witness :
  find_latest_sol (JArr ([JNull; JStr "broken"] ++ [day_json 11 3; day_json 12 0]))
  = Ok (JInt 11)
  /\ find_latest_sol (JArr ([day_json 11 3] ++ [JNull])) = Raise AttributeError.
Proof.
  destruct scan_looks_at_newest_entries_only as [Hold Hnew].
  split.
  - apply (Hold _ _ [mkDay 11 3; mkDay 12 0] (mkDay 11 3));
      [repeat constructor | reflexivity].
  - apply Hnew. reflexivity.
Defined.

End ScanFacts.

(** ** The API key *)

Section ConfigFacts.

Import Config.

Lemma key_from_environment :
  forall variable : option string,
    let r := match variable with
             | Some api_key =>
                 if negb (String.eqb api_key "") then Key (JStr api_key)
                 else RaisesValueError
             | None => RaisesValueError
             end in
    (forall key, r = Key key ->
                 exists s, variable = Some s /\ s <> EmptyString /\ key = JStr s)
    /\ (r = RaisesValueError <->
        variable = None \/ variable = Some EmptyString)
    /\ r <> RaisesOther.
Proof.
  intros [s |]; cbv zeta.
  - destruct (String.eqb s "") eqn:E; cbn [negb].
    + apply String.eqb_eq in E. subst s. split; [discriminate |].
      split; [| discriminate]. split; [now right | reflexivity].
    + apply String.eqb_neq in E. split; [| split; [| discriminate]].
      * intros key H. injection H as <-. exists s. auto.
      * split; [discriminate |].
        intros [H | H]; [discriminate | injection H as H; contradiction].
  - split; [discriminate |]. split; [| discriminate].
    split; [now left | reflexivity].
Qed.

(** X19: a value of the secrets store wins over the environment
    variable, and is returned as it is, empty or not.  When the store is
    missing or its lookup fails with one of the two caught errors, the
    key is the environment variable, which must not be empty, and the
    function's [ValueError] is raised exactly when the variable is unset
    or empty.  Any other error of the store is not caught. *)
Theorem api_key_sources :
  forall env,
    (forall v, secrets_outcome env = Some (SecretValue v) ->
               get_nasa_api_key env = Key v)
    /\ (falls_through env ->
        (forall key,
           get_nasa_api_key env = Key key ->
           exists s, getenv env = Some s /\ s <> EmptyString /\ key = JStr s)
        /\ (get_nasa_api_key env = RaisesValueError <->
            getenv env = None \/ getenv env = Some EmptyString))
    /\ (get_nasa_api_key env = RaisesValueError -> falls_through env)
    /\ (get_nasa_api_key env = RaisesOther <->
        secrets_outcome env = Some SecretOtherError).
Proof.
  intro env.
  destruct (key_from_environment (getenv env)) as (Hkey & Hraise & Hother).
  cbv zeta in Hkey, Hraise, Hother.
  unfold falls_through, secrets_outcome, get_nasa_api_key.
  destruct (HAS_STREAMLIT env && has_secrets env);
    [destruct (secret env) as [v0 | | |] |].
  - split; [intros v H; now injection H as <- |].
    split; [intros [H | [H | H]]; discriminate H |].
    split; [discriminate |]. split; discriminate.
  - split; [discriminate |].
    split; [intros _; split; [exact Hkey | exact Hraise] |].
    split; [intros _; right; now left |].
    split; [intro H; now destruct (Hother H) | discriminate].
  - split; [discriminate |].
    split; [intros _; split; [exact Hkey | exact Hraise] |].
    split; [intros _; right; now right |].
    split; [intro H; now destruct (Hother H) | discriminate].
  - split; [discriminate |].
    split; [intros [H | [H | H]]; discriminate H |].
    split; [discriminate |]. split; reflexivity.
  - split; [discriminate |].
    split; [intros _; split; [exact Hkey | exact Hraise] |].
    split; [intros _; now left |].
    split; [intro H; now destruct (Hother H) | discriminate].
Qed.

Lemma api_key_sources_witness :
  get_nasa_api_key
    (mkEnvironment true true (SecretValue (JStr "")) (Some "DEMO_KEY"%string))
  = Key (JStr "")
  /\ get_nasa_api_key (mkEnvironment true true SecretKeyError (Some EmptyString))
     = RaisesValueError.
Proof.
  split.
  - destruct (api_key_sources
                (mkEnvironment true true (SecretValue (JStr ""))
                   (Some "DEMO_KEY"%string)))
      as (H & _).
    apply H. reflexivity.
  - destruct (api_key_sources (mkEnvironment true true SecretKeyError (Some EmptyString)))
      as (_ & H & _).
    destruct H as [_ H]; [right; now left |].
    apply H. now right.
Defined.

End ConfigFacts.
